(** * Jupyter front-end of the mu32 acquisition system (client.py)

    A shallow embedding of the widget views [gui_server] and [gui_play] and
    of the controller class [array] in server mode.  Widgets are records of
    their traits, a view is a record of its widgets, and every method of a
    view is a function from the view to the view.  The controller's methods
    run in a small state-and-exception monad: an exception leaves the
    mutations done so far in place, as in Python.  Everything outside the
    file (the megamicros client, paramiko, the event loop) is an oracle
    [env] that decides what each external call returns or raises, and each
    external call is appended to a trace. *)

From Stdlib Require Import String Ascii List Bool ZArith QArith Lia DecimalString.
Import ListNotations.
Local Open Scope string_scope.
Local Open Scope Z_scope.

(** ** ipywidgets: the traits the file reads or writes *)

Module widgets.

Module Text.
Record t := mk
  { value : string; description : string;
    continuous_update : bool; disabled : bool }.
Definition set_value (v : string) (w : t) : t :=
  {| value := v; description := description w;
     continuous_update := continuous_update w; disabled := disabled w |}.
Definition set_disabled (b : bool) (w : t) : t :=
  {| value := value w; description := description w;
     continuous_update := continuous_update w; disabled := b |}.
End Text.

Module Dropdown.
Record t := mk
  { options : list string; value : string; description : string;
    continuous_update : bool; disabled : bool }.
Definition set_disabled (b : bool) (w : t) : t :=
  {| options := options w; value := value w; description := description w;
     continuous_update := continuous_update w; disabled := b |}.
(** Selecting a value: one that is not among the options is refused and
    the selection stays as it was. *)
Definition select (v : string) (w : t) : t :=
  if in_dec string_dec v (options w) then
    {| options := options w; value := v; description := description w;
       continuous_update := continuous_update w; disabled := disabled w |}
  else w.
End Dropdown.

Module Button.
Record t := mk { description : string; disabled : bool }.
Definition set_disabled (b : bool) (w : t) : t :=
  {| description := description w; disabled := b |}.
End Button.

Module HTML.
Record t := mk { value : string; placeholder : string; description : string }.
Definition set_value (v : string) (w : t) : t :=
  {| value := v; placeholder := placeholder w; description := description w |}.
End HTML.

Module Password.
Record t := mk { value : string; description : string; disabled : bool }.
Definition set_value (v : string) (w : t) : t :=
  {| value := v; description := description w; disabled := disabled w |}.
End Password.

End widgets.

(** ** The Python run time the file relies on *)

Module py.

(** An exception object: its class, the classes that class derives from,
    and what [str(e)] gives. *)
Record exn := new_exn
  { exc_class : string;
    exc_bases : list string;
    exc_str : string }.

(** An exception of a class that derives from [Exception]: the errors the
    libraries and the builtins raise. *)
Definition mk_exn (cls str : string) : exn :=
  new_exn cls ["Exception"; "BaseException"] str.

(** An exception of a class that derives from [BaseException] and not
    from [Exception]: KeyboardInterrupt, SystemExit, asyncio's
    CancelledError. *)
Definition mk_base_exn (cls str : string) : exn :=
  new_exn cls ["BaseException"] str.

(** [isinstance(e, cls)] *)
Definition isinstance (e : exn) (cls : string) : bool :=
  String.eqb (exc_class e) cls || existsb (String.eqb cls) (exc_bases e).

(** The values that reach a [+] in the file. *)
Inductive value :=
| Str (s : string)
| Exc (e : exn).

(** numpy buffers.  The float operations of [read] stay symbolic. *)
Inductive ndarray :=
| frame (data : list (list Z))
| astype_float32 (a : ndarray)
| mul_scalar (a : ndarray) (k : Q).

(** Keyword arguments of [MemsArrayWS.run]; an argument a call site does
    not pass is [None]. *)
Record run_kwargs := mk_run
  { mems : list Z;
    duration : Z;
    h5_recording : option bool;
    h5_pass_through : option bool;
    h5_rootdir : option string;
    h5_compressing : option bool;
    signal_q_size : Z;
    job : string }.

(** What leaves the file: console output, calls into megamicros, asyncio
    and paramiko, and the view methods the controller invokes. *)
Inductive event :=
| print (line : string)
| ViewCall (method : string)
| MemsArrayWS_new (host port : string)
| Mu32_run (kw : run_kwargs)
| Mu32_halt
| Mu32_h5_start
| Mu32_h5_stop
| Mu32_async_settings
| Signal_q_get (timeout : Z)
| Create_task (coroutine : string)
| SSH_set_missing_host_key_policy (policy : string)
| SSH_connect (host username password : string) (timeout : Z)
| SSH_exec_command (command : string)
| SSH_close.

Definition trace := list event.

(** The answers of the outside world to one callback: for each external
    call, whether it raises, and what it returns. *)
Record env := mk_env
  { run_raises : option exn;
    halt_raises : option exn;
    h5_start_raises : option exn;
    h5_stop_raises : option exn;
    signal_q_get_result : exn + ndarray;
    sensibility : Q;
    settings_result : exn + list (string * Z);
    connect_raises : option exn;
    exec_command_result : exn + list string }.

(** A computation over a mutable object of type [S]: it returns or raises,
    and either way the object keeps the mutations made and the trace the
    events emitted. *)
Inductive outcome (S A : Type) :=
| Returned (a : A) (s : S) (tr : trace)
| Raised (e : exn) (s : S) (tr : trace).
Arguments Returned {S A} a s tr.
Arguments Raised {S A} e s tr.

Definition M (S A : Type) := S -> trace -> outcome S A.

Definition ret {S A} (a : A) : M S A := fun s tr => Returned a s tr.

Definition bind {S A B} (c : M S A) (k : A -> M S B) : M S B :=
  fun s tr =>
    match c s tr with
    | Returned a s' tr' => k a s' tr'
    | Raised e s' tr' => Raised e s' tr'
    end.

Definition raise {S A} (e : exn) : M S A := fun s tr => Raised e s tr.

Definition get {S} : M S S := fun s tr => Returned s s tr.

Definition modify {S} (f : S -> S) : M S unit := fun s tr => Returned tt (f s) tr.

Definition emit {S} (ev : event) : M S unit := fun s tr => Returned tt s (tr ++ [ev])%list.

(** [try: body  except <classes accepted by catches> as e: handler e] *)
Definition try_except {S A} (body : M S A) (catches : exn -> bool)
    (handler : exn -> M S A) : M S A :=
  fun s tr =>
    match body s tr with
    | Returned a s' tr' => Returned a s' tr'
    | Raised e s' tr' => if catches e then handler e s' tr' else Raised e s' tr'
    end.

(** An external call: logged, then it returns or raises as the oracle says. *)
Definition external {S} (ev : event) (raises : option exn) : M S unit :=
  fun s tr =>
    match raises with
    | None => Returned tt s (tr ++ [ev])%list
    | Some e => Raised e s (tr ++ [ev])%list
    end.

Definition external_result {S A} (ev : event) (result : exn + A) : M S A :=
  fun s tr =>
    match result with
    | inr a => Returned a s (tr ++ [ev])%list
    | inl e => Raised e s (tr ++ [ev])%list
    end.

(** Run a computation on a component [get_c s] of the object. *)
Definition zoom {S C A} (get_c : S -> C) (set_c : C -> S -> S) (c : M C A) : M S A :=
  fun s tr =>
    match c (get_c s) tr with
    | Returned a c' tr' => Returned a (set_c c' s) tr'
    | Raised e c' tr' => Raised e (set_c c' s) tr'
    end.

Definition state_of {S A} (o : outcome S A) : S :=
  match o with Returned _ s _ => s | Raised _ s _ => s end.

Definition trace_of {S A} (o : outcome S A) : trace :=
  match o with Returned _ _ tr => tr | Raised _ _ tr => tr end.

Definition dquote : string := String (ascii_of_nat 34) EmptyString.

(** The filter of [except Exception]. *)
Definition Exception (e : exn) : bool := isinstance e "Exception".

Definition Empty (e : exn) : bool := String.eqb (exc_class e) "Empty".

Definition AttributeError (cls attr : string) : exn :=
  mk_exn "AttributeError" ("'" ++ cls ++ "' object has no attribute '" ++ attr ++ "'").

Definition KeyError (key : string) : exn :=
  mk_exn "KeyError" ("'" ++ key ++ "'").

Definition TypeError (msg : string) : exn := mk_exn "TypeError" msg.

(** [str(e)] *)
Definition str_exn (e : exn) : string := exc_str e.

(** [str(n)] for an int *)
Definition str_int (n : Z) : string := NilZero.string_of_int (Z.to_int n).

(** [a + b] with [a] a str: concatenation when [b] is a str, and the
    TypeError of [str.__add__] otherwise (an exception object has no
    [__radd__] to fall back on). *)
Definition str_add {S} (a : string) (b : value) : M S string :=
  match b with
  | Str b => ret (a ++ b)
  | Exc e =>
      raise (TypeError ("can only concatenate str (not " ++ dquote ++ exc_class e
                          ++ dquote ++ ") to str"))
  end.

(** [range(a, b)] *)
Definition range (a b : Z) : list Z :=
  map (fun i => a + Z.of_nat i) (seq 0 (Z.to_nat (b - a))).

(** [d[key]] on a dict with str keys *)
Fixpoint dict_lookup (d : list (string * Z)) (key : string) : option Z :=
  match d with
  | [] => None
  | (k, v) :: d' => if String.eqb k key then Some v else dict_lookup d' key
  end.

Definition getitem {S} (d : list (string * Z)) (key : string) : M S Z :=
  match dict_lookup d key with
  | Some v => ret v
  | None => raise (KeyError key)
  end.

(** [self.attr] for an attribute that exists only once it has been set *)
Definition getattr {S A} (cls attr : string) (field : S -> option A) : M S A :=
  fun s tr =>
    match field s with
    | Some a => Returned a s tr
    | None => Raised (AttributeError cls attr) s tr
    end.

End py.

Declare Scope py_scope.
Delimit Scope py_scope with py.
Notation "x <- c ;; k" := (py.bind c (fun x => k))
  (at level 61, c at next level, right associativity) : py_scope.
Notation "c ;; k" := (py.bind c (fun _ => k))
  (at level 61, right associativity) : py_scope.

(** ** class gui_server *)

Module gui_server.

(** The attributes of the view.  The four layout boxes only group the
    widgets; the one trait of theirs that changes is the visibility of
    [ligne4]. *)
Record t := mk
  { ip : widgets.Text.t;
    port : widgets.Text.t;
    array_nb : widgets.Dropdown.t;
    fs : widgets.Text.t;
    blocksize : widgets.Text.t;
    button_connect : widgets.Button.t;
    status : widgets.HTML.t;
    button_startacq : widgets.Button.t;
    button_stopacq : widgets.Button.t;
    button_startrec : widgets.Button.t;
    button_stoprec : widgets.Button.t;
    button_sos : widgets.Button.t;
    status_sos : widgets.HTML.t;
    button_start_srv : widgets.Button.t;
    button_stop_srv : widgets.Button.t;
    passwd : widgets.Password.t;
    ligne4_visibility : string }.

(** One updater per attribute: [upd_x f self] is [self] with [self.x]
    replaced by [f self.x]. *)
Definition upd_ip (f : widgets.Text.t -> widgets.Text.t) (self : t) : t :=
  {| ip := f (ip self); port := port self; array_nb := array_nb self; fs := fs self;
     blocksize := blocksize self; button_connect := button_connect self;
     status := status self; button_startacq := button_startacq self;
     button_stopacq := button_stopacq self; button_startrec := button_startrec self;
     button_stoprec := button_stoprec self; button_sos := button_sos self;
     status_sos := status_sos self; button_start_srv := button_start_srv self;
     button_stop_srv := button_stop_srv self; passwd := passwd self;
     ligne4_visibility := ligne4_visibility self |}.
Definition upd_port (f : widgets.Text.t -> widgets.Text.t) (self : t) : t :=
  {| ip := ip self; port := f (port self); array_nb := array_nb self; fs := fs self;
     blocksize := blocksize self; button_connect := button_connect self;
     status := status self; button_startacq := button_startacq self;
     button_stopacq := button_stopacq self; button_startrec := button_startrec self;
     button_stoprec := button_stoprec self; button_sos := button_sos self;
     status_sos := status_sos self; button_start_srv := button_start_srv self;
     button_stop_srv := button_stop_srv self; passwd := passwd self;
     ligne4_visibility := ligne4_visibility self |}.
Definition upd_array_nb (f : widgets.Dropdown.t -> widgets.Dropdown.t) (self : t) : t :=
  {| ip := ip self; port := port self; array_nb := f (array_nb self); fs := fs self;
     blocksize := blocksize self; button_connect := button_connect self;
     status := status self; button_startacq := button_startacq self;
     button_stopacq := button_stopacq self; button_startrec := button_startrec self;
     button_stoprec := button_stoprec self; button_sos := button_sos self;
     status_sos := status_sos self; button_start_srv := button_start_srv self;
     button_stop_srv := button_stop_srv self; passwd := passwd self;
     ligne4_visibility := ligne4_visibility self |}.
Definition upd_fs (f : widgets.Text.t -> widgets.Text.t) (self : t) : t :=
  {| ip := ip self; port := port self; array_nb := array_nb self; fs := f (fs self);
     blocksize := blocksize self; button_connect := button_connect self;
     status := status self; button_startacq := button_startacq self;
     button_stopacq := button_stopacq self; button_startrec := button_startrec self;
     button_stoprec := button_stoprec self; button_sos := button_sos self;
     status_sos := status_sos self; button_start_srv := button_start_srv self;
     button_stop_srv := button_stop_srv self; passwd := passwd self;
     ligne4_visibility := ligne4_visibility self |}.
Definition upd_blocksize (f : widgets.Text.t -> widgets.Text.t) (self : t) : t :=
  {| ip := ip self; port := port self; array_nb := array_nb self; fs := fs self;
     blocksize := f (blocksize self); button_connect := button_connect self;
     status := status self; button_startacq := button_startacq self;
     button_stopacq := button_stopacq self; button_startrec := button_startrec self;
     button_stoprec := button_stoprec self; button_sos := button_sos self;
     status_sos := status_sos self; button_start_srv := button_start_srv self;
     button_stop_srv := button_stop_srv self; passwd := passwd self;
     ligne4_visibility := ligne4_visibility self |}.
Definition upd_button_connect (f : widgets.Button.t -> widgets.Button.t) (self : t) : t :=
  {| ip := ip self; port := port self; array_nb := array_nb self; fs := fs self;
     blocksize := blocksize self; button_connect := f (button_connect self);
     status := status self; button_startacq := button_startacq self;
     button_stopacq := button_stopacq self; button_startrec := button_startrec self;
     button_stoprec := button_stoprec self; button_sos := button_sos self;
     status_sos := status_sos self; button_start_srv := button_start_srv self;
     button_stop_srv := button_stop_srv self; passwd := passwd self;
     ligne4_visibility := ligne4_visibility self |}.
Definition upd_status (f : widgets.HTML.t -> widgets.HTML.t) (self : t) : t :=
  {| ip := ip self; port := port self; array_nb := array_nb self; fs := fs self;
     blocksize := blocksize self; button_connect := button_connect self;
     status := f (status self); button_startacq := button_startacq self;
     button_stopacq := button_stopacq self; button_startrec := button_startrec self;
     button_stoprec := button_stoprec self; button_sos := button_sos self;
     status_sos := status_sos self; button_start_srv := button_start_srv self;
     button_stop_srv := button_stop_srv self; passwd := passwd self;
     ligne4_visibility := ligne4_visibility self |}.
Definition upd_button_startacq (f : widgets.Button.t -> widgets.Button.t) (self : t) : t :=
  {| ip := ip self; port := port self; array_nb := array_nb self; fs := fs self;
     blocksize := blocksize self; button_connect := button_connect self;
     status := status self; button_startacq := f (button_startacq self);
     button_stopacq := button_stopacq self; button_startrec := button_startrec self;
     button_stoprec := button_stoprec self; button_sos := button_sos self;
     status_sos := status_sos self; button_start_srv := button_start_srv self;
     button_stop_srv := button_stop_srv self; passwd := passwd self;
     ligne4_visibility := ligne4_visibility self |}.
Definition upd_button_stopacq (f : widgets.Button.t -> widgets.Button.t) (self : t) : t :=
  {| ip := ip self; port := port self; array_nb := array_nb self; fs := fs self;
     blocksize := blocksize self; button_connect := button_connect self;
     status := status self; button_startacq := button_startacq self;
     button_stopacq := f (button_stopacq self);
     button_startrec := button_startrec self; button_stoprec := button_stoprec self;
     button_sos := button_sos self; status_sos := status_sos self;
     button_start_srv := button_start_srv self;
     button_stop_srv := button_stop_srv self; passwd := passwd self;
     ligne4_visibility := ligne4_visibility self |}.
Definition upd_button_startrec (f : widgets.Button.t -> widgets.Button.t) (self : t) : t :=
  {| ip := ip self; port := port self; array_nb := array_nb self; fs := fs self;
     blocksize := blocksize self; button_connect := button_connect self;
     status := status self; button_startacq := button_startacq self;
     button_stopacq := button_stopacq self;
     button_startrec := f (button_startrec self);
     button_stoprec := button_stoprec self; button_sos := button_sos self;
     status_sos := status_sos self; button_start_srv := button_start_srv self;
     button_stop_srv := button_stop_srv self; passwd := passwd self;
     ligne4_visibility := ligne4_visibility self |}.
Definition upd_button_stoprec (f : widgets.Button.t -> widgets.Button.t) (self : t) : t :=
  {| ip := ip self; port := port self; array_nb := array_nb self; fs := fs self;
     blocksize := blocksize self; button_connect := button_connect self;
     status := status self; button_startacq := button_startacq self;
     button_stopacq := button_stopacq self; button_startrec := button_startrec self;
     button_stoprec := f (button_stoprec self); button_sos := button_sos self;
     status_sos := status_sos self; button_start_srv := button_start_srv self;
     button_stop_srv := button_stop_srv self; passwd := passwd self;
     ligne4_visibility := ligne4_visibility self |}.
Definition upd_button_sos (f : widgets.Button.t -> widgets.Button.t) (self : t) : t :=
  {| ip := ip self; port := port self; array_nb := array_nb self; fs := fs self;
     blocksize := blocksize self; button_connect := button_connect self;
     status := status self; button_startacq := button_startacq self;
     button_stopacq := button_stopacq self; button_startrec := button_startrec self;
     button_stoprec := button_stoprec self; button_sos := f (button_sos self);
     status_sos := status_sos self; button_start_srv := button_start_srv self;
     button_stop_srv := button_stop_srv self; passwd := passwd self;
     ligne4_visibility := ligne4_visibility self |}.
Definition upd_status_sos (f : widgets.HTML.t -> widgets.HTML.t) (self : t) : t :=
  {| ip := ip self; port := port self; array_nb := array_nb self; fs := fs self;
     blocksize := blocksize self; button_connect := button_connect self;
     status := status self; button_startacq := button_startacq self;
     button_stopacq := button_stopacq self; button_startrec := button_startrec self;
     button_stoprec := button_stoprec self; button_sos := button_sos self;
     status_sos := f (status_sos self); button_start_srv := button_start_srv self;
     button_stop_srv := button_stop_srv self; passwd := passwd self;
     ligne4_visibility := ligne4_visibility self |}.
Definition upd_button_start_srv (f : widgets.Button.t -> widgets.Button.t) (self : t) : t :=
  {| ip := ip self; port := port self; array_nb := array_nb self; fs := fs self;
     blocksize := blocksize self; button_connect := button_connect self;
     status := status self; button_startacq := button_startacq self;
     button_stopacq := button_stopacq self; button_startrec := button_startrec self;
     button_stoprec := button_stoprec self; button_sos := button_sos self;
     status_sos := status_sos self; button_start_srv := f (button_start_srv self);
     button_stop_srv := button_stop_srv self; passwd := passwd self;
     ligne4_visibility := ligne4_visibility self |}.
Definition upd_button_stop_srv (f : widgets.Button.t -> widgets.Button.t) (self : t) : t :=
  {| ip := ip self; port := port self; array_nb := array_nb self; fs := fs self;
     blocksize := blocksize self; button_connect := button_connect self;
     status := status self; button_startacq := button_startacq self;
     button_stopacq := button_stopacq self; button_startrec := button_startrec self;
     button_stoprec := button_stoprec self; button_sos := button_sos self;
     status_sos := status_sos self; button_start_srv := button_start_srv self;
     button_stop_srv := f (button_stop_srv self); passwd := passwd self;
     ligne4_visibility := ligne4_visibility self |}.
Definition upd_passwd (f : widgets.Password.t -> widgets.Password.t) (self : t) : t :=
  {| ip := ip self; port := port self; array_nb := array_nb self; fs := fs self;
     blocksize := blocksize self; button_connect := button_connect self;
     status := status self; button_startacq := button_startacq self;
     button_stopacq := button_stopacq self; button_startrec := button_startrec self;
     button_stoprec := button_stoprec self; button_sos := button_sos self;
     status_sos := status_sos self; button_start_srv := button_start_srv self;
     button_stop_srv := button_stop_srv self; passwd := f (passwd self);
     ligne4_visibility := ligne4_visibility self |}.
Definition upd_ligne4_visibility (f : string -> string) (self : t) : t :=
  {| ip := ip self; port := port self; array_nb := array_nb self; fs := fs self;
     blocksize := blocksize self; button_connect := button_connect self;
     status := status self; button_startacq := button_startacq self;
     button_stopacq := button_stopacq self; button_startrec := button_startrec self;
     button_stoprec := button_stoprec self; button_sos := button_sos self;
     status_sos := status_sos self; button_start_srv := button_start_srv self;
     button_stop_srv := button_stop_srv self; passwd := passwd self;
     ligne4_visibility := f (ligne4_visibility self) |}.

Import widgets.

(** [__init__]: the widgets as the constructor creates them.  A widget
    built without [disabled=...] is enabled. *)
Definition init : t :=
  {| ip := Text.mk "10.3.141.1" "Adresse IP:" false false;
     port := Text.mk "9002" "Port:" false false;
     array_nb := Dropdown.mk ["F0"; "F1"; "F2"; "F3"] "F0" "N° d'antenne:" false false;
     fs := Text.mk EmptyString "Fs:" false true;
     blocksize := Text.mk EmptyString "Blocksize:" false true;
     button_connect := Button.mk "Confirm" false;
     status := HTML.mk EmptyString "Waiting..." "Status:";
     button_startacq := Button.mk "Start ACQ" true;
     button_stopacq := Button.mk "Stop ACQ" true;
     button_startrec := Button.mk "Start Recording" true;
     button_stoprec := Button.mk "Stop recording" true;
     button_sos := Button.mk "SOS" false;
     status_sos := HTML.mk "Waiting..." "Waiting..." "Status:";
     button_start_srv := Button.mk "ADMIN: Start server" false;
     button_stop_srv := Button.mk "ADMIN: Stop server" false;
     passwd := Password.mk EmptyString "Password:" false;
     ligne4_visibility := "hidden" |}.

Definition update_status (message : string) (self : t) : t :=
  upd_status (HTML.set_value message) self.

Definition ready_to_start (fs_arg blocksize_arg : Z) (self : t) : t :=
  let self := upd_fs (Text.set_value (py.str_int fs_arg)) self in
  let self := upd_blocksize (Text.set_value (py.str_int blocksize_arg)) self in
  let self := upd_ip (Text.set_disabled true) self in
  let self := upd_port (Text.set_disabled true) self in
  let self := upd_array_nb (Dropdown.set_disabled true) self in
  let self := upd_button_connect (Button.set_disabled true) self in
  let self := upd_button_startacq (Button.set_disabled false) self in
  let self := upd_button_stopacq (Button.set_disabled true) self in
  let self := upd_button_startrec (Button.set_disabled false) self in
  let self := upd_button_stoprec (Button.set_disabled true) self in
  let self := upd_array_nb (Dropdown.set_disabled true) self in
  upd_status (HTML.set_value "Ready to start acquisition.") self.

Definition start_acq (self : t) : t :=
  let self := upd_button_startacq (Button.set_disabled true) self in
  let self := upd_button_stopacq (Button.set_disabled false) self in
  let self := upd_button_startrec (Button.set_disabled true) self in
  let self := upd_button_stoprec (Button.set_disabled true) self in
  upd_status (HTML.set_value "Acquisition started.") self.

Definition stop_acq (self : t) : t :=
  let self := upd_button_startacq (Button.set_disabled false) self in
  let self := upd_button_stopacq (Button.set_disabled true) self in
  let self := upd_button_startrec (Button.set_disabled false) self in
  let self := upd_button_stoprec (Button.set_disabled true) self in
  upd_status (HTML.set_value "Acquisition stopped.") self.

Definition start_rec (self : t) : t :=
  let self := upd_button_startacq (Button.set_disabled true) self in
  let self := upd_button_stopacq (Button.set_disabled true) self in
  let self := upd_button_startrec (Button.set_disabled true) self in
  let self := upd_button_stoprec (Button.set_disabled false) self in
  upd_status (HTML.set_value "Recording to file...") self.

Definition stop_rec (self : t) : t :=
  let self := upd_button_startacq (Button.set_disabled false) self in
  let self := upd_button_stopacq (Button.set_disabled true) self in
  let self := upd_button_startrec (Button.set_disabled false) self in
  let self := upd_button_stoprec (Button.set_disabled true) self in
  upd_status (HTML.set_value "File saved.") self.

(** The first half of [sos], up to the line that shows [ligne4]. *)
Definition sos_display (self : t) : t :=
  let self := upd_fs (Text.set_value EmptyString) self in
  let self := upd_blocksize (Text.set_value EmptyString) self in
  let self := upd_button_connect (Button.set_disabled true) self in
  let self := upd_button_startacq (Button.set_disabled true) self in
  let self := upd_button_startrec (Button.set_disabled true) self in
  let self := upd_button_start_srv (Button.set_disabled true) self in
  let self := upd_button_stop_srv (Button.set_disabled true) self in
  let self := upd_status (HTML.set_value "SOS mode. For admin only.") self in
  upd_ligne4_visibility (fun _ => "visible") self.

(** The second half of [sos], from [srv = stdout_serv.readlines()] to the
    assignment of [status_sos.value].  Python's [srv == ['active\n']] is
    equality of lists of strings. *)
Definition active_lines : list string :=
  ["active" ++ String (ascii_of_nat 10) EmptyString].

Definition sos_probe (srv : list string) (self : t) : t :=
  let (srv_state, self) :=
    if list_eq_dec string_dec srv active_lines then
      let self := upd_button_start_srv (Button.set_disabled true) self in
      let self := upd_button_stop_srv (Button.set_disabled false) self in
      ("OK", self)
    else
      let self := upd_button_start_srv (Button.set_disabled false) self in
      let self := upd_button_stop_srv (Button.set_disabled true) self in
      ("ERROR", self) in
  upd_status_sos (HTML.set_value ("Server = " ++ srv_state)) self.

(** The enabled/disabled state of the view: the [disabled] trait of every
    widget that has one, in the order of the constructor. *)
Definition enablement (self : t) : list bool :=
  [ Text.disabled (ip self); Text.disabled (port self);
    Dropdown.disabled (array_nb self); Text.disabled (fs self);
    Text.disabled (blocksize self); Button.disabled (button_connect self);
    Button.disabled (button_startacq self); Button.disabled (button_stopacq self);
    Button.disabled (button_startrec self); Button.disabled (button_stoprec self);
    Button.disabled (button_sos self); Button.disabled (button_start_srv self);
    Button.disabled (button_stop_srv self); Password.disabled (passwd self) ].

(** The five buttons of the transition table, as [disabled] flags:
    Connect, StartAcq, StopAcq, StartRec, StopRec. *)
Definition acquisition_buttons (self : t) : list bool :=
  [ Button.disabled (button_connect self);
    Button.disabled (button_startacq self); Button.disabled (button_stopacq self);
    Button.disabled (button_startrec self); Button.disabled (button_stoprec self) ].

(** [sos]: the display changes, then the status probe over SSH with the
    account and password written in the source, then the two server
    buttons set from the probe's output lines. *)
Definition sos (E : py.env) (button : widgets.Button.t) : py.M t unit :=
  (py.modify sos_display ;;
   py.emit (py.SSH_set_missing_host_key_policy "AutoAddPolicy") ;;
   host <- py.get ;;
   py.external (py.SSH_connect (Text.value (ip host)) "root" "toto@12!" 5)
               (py.connect_raises E) ;;
   srv <- py.external_result
            (py.SSH_exec_command "systemctl is-active megamicros_server.service")
            (py.exec_command_result E) ;;
   py.modify (sos_probe srv) ;;
   py.emit py.SSH_close)%py.

End gui_server.

(** ** class gui_play *)

Module gui_play.

(** [file] is the FileChooser: its filter pattern and its selection. *)
Record t := mk
  { file_filter_pattern : string;
    file_selected : option string;
    fs : widgets.Text.t;
    blocksize : widgets.Text.t;
    button_startplay : widgets.Button.t;
    button_stopplay : widgets.Button.t;
    status : widgets.HTML.t }.

Definition upd_file_filter_pattern (f : string -> string) (self : t) : t :=
  {| file_filter_pattern := f (file_filter_pattern self);
     file_selected := file_selected self; fs := fs self; blocksize := blocksize self;
     button_startplay := button_startplay self;
     button_stopplay := button_stopplay self; status := status self |}.
Definition upd_file_selected (f : option string -> option string) (self : t) : t :=
  {| file_filter_pattern := file_filter_pattern self;
     file_selected := f (file_selected self); fs := fs self;
     blocksize := blocksize self; button_startplay := button_startplay self;
     button_stopplay := button_stopplay self; status := status self |}.
Definition upd_fs (f : widgets.Text.t -> widgets.Text.t) (self : t) : t :=
  {| file_filter_pattern := file_filter_pattern self;
     file_selected := file_selected self; fs := f (fs self);
     blocksize := blocksize self; button_startplay := button_startplay self;
     button_stopplay := button_stopplay self; status := status self |}.
Definition upd_blocksize (f : widgets.Text.t -> widgets.Text.t) (self : t) : t :=
  {| file_filter_pattern := file_filter_pattern self;
     file_selected := file_selected self; fs := fs self;
     blocksize := f (blocksize self); button_startplay := button_startplay self;
     button_stopplay := button_stopplay self; status := status self |}.
Definition upd_button_startplay (f : widgets.Button.t -> widgets.Button.t) (self : t) : t :=
  {| file_filter_pattern := file_filter_pattern self;
     file_selected := file_selected self; fs := fs self; blocksize := blocksize self;
     button_startplay := f (button_startplay self);
     button_stopplay := button_stopplay self; status := status self |}.
Definition upd_button_stopplay (f : widgets.Button.t -> widgets.Button.t) (self : t) : t :=
  {| file_filter_pattern := file_filter_pattern self;
     file_selected := file_selected self; fs := fs self; blocksize := blocksize self;
     button_startplay := button_startplay self;
     button_stopplay := f (button_stopplay self); status := status self |}.
Definition upd_status (f : widgets.HTML.t -> widgets.HTML.t) (self : t) : t :=
  {| file_filter_pattern := file_filter_pattern self;
     file_selected := file_selected self; fs := fs self; blocksize := blocksize self;
     button_startplay := button_startplay self;
     button_stopplay := button_stopplay self; status := f (status self) |}.

Import widgets.

Definition init : t :=
  {| file_filter_pattern := "*.h5";
     file_selected := None;
     fs := Text.mk EmptyString "Fs:" false true;
     blocksize := Text.mk "2048" "Blocksize:" false false;
     button_startplay := Button.mk "Play file" true;
     button_stopplay := Button.mk "Stop" true;
     status := HTML.mk EmptyString "Waiting..." "Status:" |}.

Definition update_data_info (fs_str duration : string) (self : t) : t :=
  let self := upd_fs (Text.set_value fs_str) self in
  let self := upd_blocksize (Text.set_disabled false) self in
  let self := upd_button_startplay (Button.set_disabled false) self in
  let self := upd_button_stopplay (Button.set_disabled true) self in
  upd_status (HTML.set_value ("File duration = " ++ duration ++ "s.")) self.

Definition start_read (self : t) : t :=
  let self := upd_blocksize (Text.set_disabled true) self in
  let self := upd_button_startplay (Button.set_disabled true) self in
  let self := upd_button_stopplay (Button.set_disabled false) self in
  upd_status (HTML.set_value "Reading file") self.

Definition stop_read (self : t) : t :=
  let self := upd_blocksize (Text.set_disabled false) self in
  let self := upd_button_startplay (Button.set_disabled false) self in
  let self := upd_button_stopplay (Button.set_disabled true) self in
  upd_status (HTML.set_value "Reading stopped") self.

Definition update_status (message : string) (self : t) : t :=
  upd_status (HTML.set_value message) self.

End gui_play.

(** ** class array, constructed with type 'server' *)

Module array.

(** The client object [MemsArrayWS(host, port=port)] as the file sees it:
    what it was constructed from.  Its behaviour is in [py.env]. *)
Record MemsArrayWS := mk_mu32 { host : string; port : string }.

(** The attributes of the controller.  [fs] and [blocksize] are class
    attributes with default 0; the others exist only once assigned. *)
Record t := mk
  { fs : Z;
    blocksize : Z;
    gui : gui_server.t;
    mu32 : option MemsArrayWS;
    mems_list : option (list Z);
    mems_nb : option Z;
    interspace : option Q;
    m : option py.ndarray }.

Definition set_fs (v : Z) (self : t) : t :=
  {| fs := v; blocksize := blocksize self; gui := gui self; mu32 := mu32 self;
     mems_list := mems_list self; mems_nb := mems_nb self;
     interspace := interspace self; m := m self |}.
Definition set_blocksize (v : Z) (self : t) : t :=
  {| fs := fs self; blocksize := v; gui := gui self; mu32 := mu32 self;
     mems_list := mems_list self; mems_nb := mems_nb self;
     interspace := interspace self; m := m self |}.
Definition set_gui (v : gui_server.t) (self : t) : t :=
  {| fs := fs self; blocksize := blocksize self; gui := v; mu32 := mu32 self;
     mems_list := mems_list self; mems_nb := mems_nb self;
     interspace := interspace self; m := m self |}.
Definition set_mu32 (v : option MemsArrayWS) (self : t) : t :=
  {| fs := fs self; blocksize := blocksize self; gui := gui self; mu32 := v;
     mems_list := mems_list self; mems_nb := mems_nb self;
     interspace := interspace self; m := m self |}.
Definition set_mems_list (v : option (list Z)) (self : t) : t :=
  {| fs := fs self; blocksize := blocksize self; gui := gui self; mu32 := mu32 self;
     mems_list := v; mems_nb := mems_nb self; interspace := interspace self;
     m := m self |}.
Definition set_mems_nb (v : option Z) (self : t) : t :=
  {| fs := fs self; blocksize := blocksize self; gui := gui self; mu32 := mu32 self;
     mems_list := mems_list self; mems_nb := v; interspace := interspace self;
     m := m self |}.
Definition set_interspace (v : option Q) (self : t) : t :=
  {| fs := fs self; blocksize := blocksize self; gui := gui self; mu32 := mu32 self;
     mems_list := mems_list self; mems_nb := mems_nb self; interspace := v;
     m := m self |}.
Definition set_m (v : option py.ndarray) (self : t) : t :=
  {| fs := fs self; blocksize := blocksize self; gui := gui self; mu32 := mu32 self;
     mems_list := mems_list self; mems_nb := mems_nb self;
     interspace := interspace self; m := v |}.

Import widgets.

(** [__init__('server')] *)
Definition init : t :=
  {| fs := 0; blocksize := 0; gui := gui_server.init; mu32 := None;
     mems_list := None; mems_nb := None; interspace := None; m := None |}.

(** [self.gui.method(...)] *)
Definition call_gui (method : string) (f : gui_server.t -> gui_server.t) : py.M t unit :=
  (py.emit (py.ViewCall method) ;;
   py.modify (fun self => set_gui (f (gui self)) self))%py.

Definition self_mu32 : py.M t MemsArrayWS := py.getattr "array" "mu32" mu32.
Definition self_mems_list : py.M t (list Z) := py.getattr "array" "mems_list" mems_list.

(** [validateAcq_fct_settings]: the coroutine the event loop runs after
    [validateAcq_fct] has created its task.  [await settings_future] gives
    the settings dict, or raises what the future was failed with. *)
Definition validateAcq_fct_settings (E : py.env) : py.M t unit :=
  (_ <- self_mu32 ;;
   py.emit (py.Create_task "mu32.async_settings") ;;
   settings <- py.external_result py.Mu32_async_settings (py.settings_result E) ;;
   v <- py.getitem settings "sampling_frequency" ;;
   py.modify (set_fs v) ;;
   v <- py.getitem settings "frame_length" ;;
   py.modify (set_blocksize v) ;;
   l <- self_mems_list ;;
   py.modify (set_mems_nb (Some (Z.of_nat (length l)))) ;;
   py.modify (set_interspace (Some (6 # 100)%Q)) ;;
   self <- py.get ;;
   call_gui "ready_to_start"
     (gui_server.ready_to_start (fs self) (blocksize self)))%py.

(** [validateAcq_fct].  The [return] of the last branch is the [false]
    below: nothing after the chain of tests runs. *)
Definition validateAcq_fct (button : Button.t) : py.M t unit :=
  (self <- py.get ;;
   let h := Text.value (gui_server.ip (gui self)) in
   let p := Text.value (gui_server.port (gui self)) in
   py.emit (py.MemsArrayWS_new h p) ;;
   py.modify (set_mu32 (Some (mk_mu32 h p))) ;;
   self <- py.get ;;
   let selector := Dropdown.value (gui_server.array_nb (gui self)) in
   continue <-
     (if String.eqb selector "F0" then
        py.modify (set_mems_list (Some (py.range 0 8))) ;; py.ret true
      else if String.eqb selector "F1" then
        py.modify (set_mems_list (Some (py.range 8 16))) ;; py.ret true
      else if String.eqb selector "F2" then
        py.modify (set_mems_list (Some (py.range 16 24))) ;; py.ret true
      else if String.eqb selector "F3" then
        py.modify (set_mems_list (Some (py.range 24 32))) ;; py.ret true
      else
        py.emit (py.print "ERROR: bad array number selected.") ;; py.ret false) ;;
   if continue : bool then py.emit (py.Create_task "validateAcq_fct_settings")
   else py.ret tt)%py.

Definition startacq_fct (E : py.env) (button : Button.t) : py.M t unit :=
  py.try_except
    (_ <- self_mu32 ;;
     l <- self_mems_list ;;
     py.external
       (py.Mu32_run (py.mk_run l 0 None None None None 1 "listen"))
       (py.run_raises E) ;;
     call_gui "start_acq" gui_server.start_acq)%py
    py.Exception
    (fun e =>
       msg <- py.str_add "Aborting: " (py.Str (py.str_exn e)) ;;
       call_gui "update_status" (gui_server.update_status msg))%py.

Definition stopacq_fct (E : py.env) (button : Button.t) : py.M t unit :=
  (_ <- self_mu32 ;;
   py.external py.Mu32_halt (py.halt_raises E) ;;
   call_gui "stop_acq" gui_server.stop_acq)%py.

Definition startrec_fct (E : py.env) (button : Button.t) : py.M t unit :=
  py.try_except
    (call_gui "start_rec" gui_server.start_rec ;;
     _ <- self_mu32 ;;
     l <- self_mems_list ;;
     py.external
       (py.Mu32_run (py.mk_run l 0 (Some true) (Some false) (Some "./") (Some false)
                               0 "listen"))
       (py.run_raises E) ;;
     _ <- self_mu32 ;;
     py.external py.Mu32_h5_start (py.h5_start_raises E))%py
    py.Exception
    (fun e =>
       msg <- py.str_add "Aborting: " (py.Exc e) ;;
       call_gui "update_status" (gui_server.update_status msg))%py.

Definition stoprec_fct (E : py.env) (button : Button.t) : py.M t unit :=
  (_ <- self_mu32 ;;
   py.external py.Mu32_h5_stop (py.h5_stop_raises E) ;;
   _ <- self_mu32 ;;
   py.external py.Mu32_halt (py.halt_raises E) ;;
   call_gui "stop_rec" gui_server.stop_rec)%py.

(** [read]: the returned value is [Some buffer], or [None] for Python's
    bare [return]. *)
Definition read (E : py.env) : py.M t (option py.ndarray) :=
  py.try_except
    (_ <- self_mu32 ;;
     raw <- py.external_result (py.Signal_q_get 5) (py.signal_q_get_result E) ;;
     _ <- self_mu32 ;;
     py.modify (set_m (Some (py.mul_scalar (py.astype_float32 raw) (py.sensibility E)))) ;;
     self <- py.get ;;
     py.ret (m self))%py
    py.Empty
    (fun _ =>
       call_gui "update_status" (gui_server.update_status "ERROR: No data available") ;;
       py.ret None)%py.

Definition set_srv_buttons (start_disabled stop_disabled : bool) (g : gui_server.t)
    : gui_server.t :=
  let g := gui_server.upd_button_start_srv (Button.set_disabled start_disabled) g in
  gui_server.upd_button_stop_srv (Button.set_disabled stop_disabled) g.

Definition sos_fct (E : py.env) (button : Button.t) : py.M t unit :=
  (self <- py.get ;;
   if String.eqb (Password.value (gui_server.passwd (gui self))) EmptyString then
     py.emit (py.print "ERROR: please indicate the password to launch the command.")
   else
     py.emit (py.SSH_set_missing_host_key_policy "AutoAddPolicy") ;;
     py.external
       (py.SSH_connect (Text.value (gui_server.ip (gui self))) "root"
                       (Password.value (gui_server.passwd (gui self))) 5)
       (py.connect_raises E) ;;
     command <-
       (if String.eqb (Button.description button) "ADMIN: Stop server" then
          py.modify (fun self => set_gui (set_srv_buttons false true (gui self)) self) ;;
          py.ret "systemctl stop megamicros_server"
        else if String.eqb (Button.description button) "ADMIN: Start server" then
          py.modify (fun self => set_gui (set_srv_buttons true false (gui self)) self) ;;
          py.ret "systemctl start megamicros_server"
        else
          py.emit (py.print "Unkown button...") ;;
          py.ret "ls") ;;
     _ <- py.external_result (py.SSH_exec_command command)
            (match py.exec_command_result E with
             | inl e => inl e
             | inr _ => inr tt
             end) ;;
     py.emit py.SSH_close)%py.

(** [self.gui.sos], the handler of the SOS button, seen from the controller
    that owns the view. *)
Definition gui_sos (E : py.env) (button : Button.t) : py.M t unit :=
  (py.emit (py.ViewCall "sos") ;;
   py.zoom gui set_gui (gui_server.sos E button))%py.

End array.

(** ** A session of the server front-end

    The notebook's event loop runs one callback at a time.  A callback is
    a click on one of the buttons, an edit of an input, a call of [read]
    from a cell, or the settings coroutine of a task that was created and
    has not run yet.  An exception that leaves a callback is logged by the
    toolkit; the mutations made before it stay.  Handlers are not guarded
    by the [disabled] trait here, so the states reached include those a
    program reaches with [button.click()]. *)

Module session.

Import widgets.

Record world := mk
  { self : array.t;
    out : py.trace;
    tasks_run : nat }.

Inductive action :=
| click_connect
| click_startacq
| click_stopacq
| click_startrec
| click_stoprec
| click_sos
| click_start_srv
| click_stop_srv
| run_settings_task
| call_read
| edit_ip (v : string)
| edit_port (v : string)
| select_array_nb (v : string)
| edit_passwd (v : string).

Definition is_settings_task (ev : py.event) : bool :=
  match ev with
  | py.Create_task c => String.eqb c "validateAcq_fct_settings"
  | _ => false
  end.

Definition tasks_created (tr : py.trace) : nat := length (filter is_settings_task tr).

Definition is_view_call (method : string) (ev : py.event) : bool :=
  match ev with
  | py.ViewCall n => String.eqb n method
  | _ => false
  end.

(** Has the view method been invoked so far? *)
Definition view_called (method : string) (tr : py.trace) : bool :=
  existsb (is_view_call method) tr.

Definition is_settings_fetch (ev : py.event) : bool :=
  match ev with
  | py.Mu32_async_settings => true
  | _ => false
  end.

Definition settings_requested (tr : py.trace) : bool := existsb is_settings_fetch tr.

Definition after {A} (w : world) (o : py.outcome array.t A) : world :=
  {| self := py.state_of o; out := py.trace_of o; tasks_run := tasks_run w |}.

Definition edit (f : gui_server.t -> gui_server.t) (w : world) : world :=
  {| self := array.set_gui (f (array.gui (self w))) (self w);
     out := out w; tasks_run := tasks_run w |}.

Definition exec (a : action) (E : py.env) (w : world) : world :=
  let g := array.gui (self w) in
  match a with
  | click_connect =>
      after w (array.validateAcq_fct (gui_server.button_connect g) (self w) (out w))
  | click_startacq =>
      after w (array.startacq_fct E (gui_server.button_startacq g) (self w) (out w))
  | click_stopacq =>
      after w (array.stopacq_fct E (gui_server.button_stopacq g) (self w) (out w))
  | click_startrec =>
      after w (array.startrec_fct E (gui_server.button_startrec g) (self w) (out w))
  | click_stoprec =>
      after w (array.stoprec_fct E (gui_server.button_stoprec g) (self w) (out w))
  | click_sos =>
      after w (array.gui_sos E (gui_server.button_sos g) (self w) (out w))
  | click_start_srv =>
      after w (array.sos_fct E (gui_server.button_start_srv g) (self w) (out w))
  | click_stop_srv =>
      after w (array.sos_fct E (gui_server.button_stop_srv g) (self w) (out w))
  | run_settings_task =>
      if (tasks_run w <? tasks_created (out w))%nat then
        let o := array.validateAcq_fct_settings E (self w) (out w) in
        {| self := py.state_of o; out := py.trace_of o; tasks_run := S (tasks_run w) |}
      else w
  | call_read => after w (array.read E (self w) (out w))
  | edit_ip v => edit (gui_server.upd_ip (Text.set_value v)) w
  | edit_port v => edit (gui_server.upd_port (Text.set_value v)) w
  | select_array_nb v => edit (gui_server.upd_array_nb (Dropdown.select v)) w
  | edit_passwd v => edit (gui_server.upd_passwd (Password.set_value v)) w
  end.

Definition initial : world := {| self := array.init; out := []; tasks_run := 0 |}.

Inductive reachable : world -> Prop :=
| reachable_initial : reachable initial
| reachable_exec a E w : reachable w -> reachable (exec a E w).

(** Run a list of callbacks, each with the answers of the outside world
    it meets. *)
Fixpoint run (l : list (action * py.env)) (w : world) : world :=
  match l with
  | [] => w
  | (a, E) :: l' => run l' (exec a E w)
  end.

(** The controller has reached ReadyToStart: the view's [ready_to_start]
    has been invoked. *)
Definition at_or_past_ready (w : world) : bool := view_called "ready_to_start" (out w).

(** The view's own [sos] handler has been invoked. *)
Definition sos_entered (w : world) : bool := view_called "sos" (out w).

(** What every state of a session satisfies, in terms of the [disabled]
    traits of the connection inputs. *)
Record connection_inputs_invariant (w : world) : Prop := mk_inv
  { inv_ip :
      Text.disabled (gui_server.ip (array.gui (self w))) = at_or_past_ready w;
    inv_port :
      Text.disabled (gui_server.port (array.gui (self w))) = at_or_past_ready w;
    inv_array_nb :
      Dropdown.disabled (gui_server.array_nb (array.gui (self w))) = at_or_past_ready w;
    inv_connect :
      Button.disabled (gui_server.button_connect (array.gui (self w))) =
        at_or_past_ready w || sos_entered w;
    inv_fetched :
      at_or_past_ready w = true -> settings_requested (out w) = true;
    inv_interspace :
      at_or_past_ready w = true <-> array.interspace (self w) <> None }.

End session.

(** ** Vocabulary of the specification *)

Module spec.

(** Position of a value in a list of options. *)
Fixpoint index_of (v : string) (options : list string) : option nat :=
  match options with
  | [] => None
  | o :: options' =>
      if String.eqb v o then Some O
      else match index_of v options' with
           | Some k => Some (S k)
           | None => None
           end
  end.

(** The selector index of a value of the array dropdown. *)
Definition selector_index (v : string) : option nat :=
  index_of v (widgets.Dropdown.options (gui_server.array_nb gui_server.init)).

(** The contiguous ascending block of 8 indices that starts at [k * 8]. *)
Definition block (k : nat) : list Z :=
  map (fun i => Z.of_nat k * 8 + Z.of_nat i) (seq 0 8).

(** [sub] occurs in [s]. *)
Definition contains (s sub : string) : Prop :=
  exists before after, s = before ++ sub ++ after.

End spec.

(** ** Concrete sessions used to exercise the statements *)

Module examples.

Import widgets.

(** An outside world where every call returns: the server answers with
    its settings, frames arrive, and the service is active. *)
Definition all_fine : py.env :=
  {| py.run_raises := None;
     py.halt_raises := None;
     py.h5_start_raises := None;
     py.h5_stop_raises := None;
     py.signal_q_get_result := inr (py.frame [[1; 2]; [3; 4]]);
     py.sensibility := (1 # 1000)%Q;
     py.settings_result := inr [("sampling_frequency", 50000); ("frame_length", 512)];
     py.connect_raises := None;
     py.exec_command_result := inr gui_server.active_lines |}.

Definition refused : py.exn := py.mk_exn "ConnectionError" "server unreachable".

(** The same world, except that [run] raises. *)
Definition run_fails : py.env :=
  {| py.run_raises := Some refused;
     py.halt_raises := None;
     py.h5_start_raises := None;
     py.h5_stop_raises := None;
     py.signal_q_get_result := inr (py.frame [[1; 2]; [3; 4]]);
     py.sensibility := (1 # 1000)%Q;
     py.settings_result := inr [("sampling_frequency", 50000); ("frame_length", 512)];
     py.connect_raises := None;
     py.exec_command_result := inr gui_server.active_lines |}.

(** The same world, except that the queue stays empty for 5 seconds and
    the service is reported inactive. *)
Definition nothing_queued : py.env :=
  {| py.run_raises := None;
     py.halt_raises := None;
     py.h5_start_raises := None;
     py.h5_stop_raises := None;
     py.signal_q_get_result := inl (py.mk_exn "Empty" EmptyString);
     py.sensibility := (1 # 1000)%Q;
     py.settings_result := inr [("sampling_frequency", 50000); ("frame_length", 512)];
     py.connect_raises := None;
     py.exec_command_result := inr ["inactive" ++ String (ascii_of_nat 10) EmptyString] |}.

(** The controller after Confirm on the default inputs and the arrival of
    the settings. *)
Definition ready : session.world :=
  session.run [(session.click_connect, all_fine); (session.run_settings_task, all_fine)]
    session.initial.

(** A controller whose dropdown holds a value outside its options. *)
Definition bad_selector : array.t :=
  array.set_gui
    (gui_server.upd_array_nb
       (fun w => Dropdown.mk (Dropdown.options w) "F4" (Dropdown.description w)
                   (Dropdown.continuous_update w) (Dropdown.disabled w))
       gui_server.init)
    array.init.

(** A button that is not one of the view's. *)
Definition stray_button : Button.t := Button.mk "Reboot" false.

(** The controller of [ready] with a password typed in. *)
Definition ready_with_password : array.t :=
  session.self (session.exec (session.edit_passwd "secret") all_fine ready).

End examples.

(** ** The playback side: what the H5 client and the builtins answer *)

Module h5.

(** A number read from the H5 file.  A float is kept as the text that
    [repr] gives for it, which is what [str] returns. *)
Inductive number :=
| int_ (n : Z)
| float_ (repr : string).

(** [str(x)] *)
Definition str (x : number) : string :=
  match x with
  | int_ n => py.str_int n
  | float_ r => r
  end.

(** The attributes of a [MemsArrayH5] object that the file reads. *)
Module MemsArrayH5.
Record t := mk
  { sampling_frequency : number;
    file_duration : number;
    mems : list Z;
    available_mems : list Z }.
End MemsArrayH5.

(** Keyword arguments of [MemsArrayH5.run] as [play_fct] passes them. *)
Record run_kwargs := mk_run
  { mems : list Z;
    duration : Z;
    frame_length : Z;
    counter_skip : bool;
    signal_q_size : Z;
    datatype : string }.

Inductive event :=
| ViewCall (method : string)
| MemsArrayH5_new (filename : option string)
| Mu32_run (kw : run_kwargs)
| Mu32_stop.

Definition trace := list event.

(** The answers of the outside world to one playback callback: what
    opening a file gives, whether [run] and [stop] raise, and what the
    builtin [int] makes of a text. *)
Record env := mk_env
  { open_h5 : option string -> py.exn + MemsArrayH5.t;
    run_raises : option py.exn;
    stop_raises : option py.exn;
    int : string -> py.exn + Z }.

Inductive outcome (S A : Type) :=
| Returned (a : A) (s : S) (tr : trace)
| Raised (e : py.exn) (s : S) (tr : trace).
Arguments Returned {S A} a s tr.
Arguments Raised {S A} e s tr.

Definition M (S A : Type) := S -> trace -> outcome S A.

Definition ret {S A} (a : A) : M S A := fun s tr => Returned a s tr.

Definition bind {S A B} (c : M S A) (k : A -> M S B) : M S B :=
  fun s tr =>
    match c s tr with
    | Returned a s' tr' => k a s' tr'
    | Raised e s' tr' => Raised e s' tr'
    end.

Definition get {S} : M S S := fun s tr => Returned s s tr.

Definition modify {S} (f : S -> S) : M S unit := fun s tr => Returned tt (f s) tr.

Definition emit {S} (ev : event) : M S unit := fun s tr => Returned tt s (tr ++ [ev])%list.

(** A builtin: no trace, it returns or raises. *)
Definition builtin {S A} (result : py.exn + A) : M S A :=
  fun s tr =>
    match result with
    | inr a => Returned a s tr
    | inl e => Raised e s tr
    end.

Definition external {S} (ev : event) (raises : option py.exn) : M S unit :=
  fun s tr =>
    match raises with
    | None => Returned tt s (tr ++ [ev])%list
    | Some e => Raised e s (tr ++ [ev])%list
    end.

Definition external_result {S A} (ev : event) (result : py.exn + A) : M S A :=
  fun s tr =>
    match result with
    | inr a => Returned a s (tr ++ [ev])%list
    | inl e => Raised e s (tr ++ [ev])%list
    end.

Definition getattr {S A} (cls attr : string) (field : S -> option A) : M S A :=
  fun s tr =>
    match field s with
    | Some a => Returned a s tr
    | None => Raised (py.AttributeError cls attr) s tr
    end.

Definition state_of {S A} (o : outcome S A) : S :=
  match o with Returned _ s _ => s | Raised _ s _ => s end.

Definition trace_of {S A} (o : outcome S A) : trace :=
  match o with Returned _ _ tr => tr | Raised _ _ tr => tr end.

End h5.

Declare Scope h5_scope.
Delimit Scope h5_scope with h5.
Notation "x <- c ;; k" := (h5.bind c (fun x => k))
  (at level 61, c at next level, right associativity) : h5_scope.
Notation "c ;; k" := (h5.bind c (fun _ => k))
  (at level 61, right associativity) : h5_scope.

(** ** class array, constructed with type 'play' *)

Module array_play.

Import widgets.

(** The attributes of the controller in playback.  [fs] and [blocksize]
    are class attributes with default 0; the others exist only once
    assigned.  [filename] holds [file.selected], which may be None. *)
Record t := mk
  { fs : h5.number;
    blocksize : Z;
    gui : gui_play.t;
    filename : option (option string);
    mu32 : option h5.MemsArrayH5.t;
    file_duration : option h5.number;
    interspace : option Q;
    mems_nb : option Z }.

Definition set_fs (v : h5.number) (self : t) : t :=
  {| fs := v; blocksize := blocksize self; gui := gui self; filename := filename self;
     mu32 := mu32 self; file_duration := file_duration self;
     interspace := interspace self; mems_nb := mems_nb self |}.
Definition set_blocksize (v : Z) (self : t) : t :=
  {| fs := fs self; blocksize := v; gui := gui self; filename := filename self;
     mu32 := mu32 self; file_duration := file_duration self;
     interspace := interspace self; mems_nb := mems_nb self |}.
Definition set_gui (v : gui_play.t) (self : t) : t :=
  {| fs := fs self; blocksize := blocksize self; gui := v; filename := filename self;
     mu32 := mu32 self; file_duration := file_duration self;
     interspace := interspace self; mems_nb := mems_nb self |}.
Definition set_filename (v : option (option string)) (self : t) : t :=
  {| fs := fs self; blocksize := blocksize self; gui := gui self; filename := v;
     mu32 := mu32 self; file_duration := file_duration self;
     interspace := interspace self; mems_nb := mems_nb self |}.
Definition set_mu32 (v : option h5.MemsArrayH5.t) (self : t) : t :=
  {| fs := fs self; blocksize := blocksize self; gui := gui self;
     filename := filename self; mu32 := v; file_duration := file_duration self;
     interspace := interspace self; mems_nb := mems_nb self |}.
Definition set_file_duration (v : option h5.number) (self : t) : t :=
  {| fs := fs self; blocksize := blocksize self; gui := gui self;
     filename := filename self; mu32 := mu32 self; file_duration := v;
     interspace := interspace self; mems_nb := mems_nb self |}.
Definition set_interspace (v : option Q) (self : t) : t :=
  {| fs := fs self; blocksize := blocksize self; gui := gui self;
     filename := filename self; mu32 := mu32 self; file_duration := file_duration self;
     interspace := v; mems_nb := mems_nb self |}.
Definition set_mems_nb (v : option Z) (self : t) : t :=
  {| fs := fs self; blocksize := blocksize self; gui := gui self;
     filename := filename self; mu32 := mu32 self; file_duration := file_duration self;
     interspace := interspace self; mems_nb := v |}.

(** [__init__('play')] *)
Definition init : t :=
  {| fs := h5.int_ 0; blocksize := 0; gui := gui_play.init; filename := None;
     mu32 := None; file_duration := None; interspace := None; mems_nb := None |}.

Definition call_gui (method : string) (f : gui_play.t -> gui_play.t) : h5.M t unit :=
  (h5.emit (h5.ViewCall method) ;;
   h5.modify (fun self => set_gui (f (gui self)) self))%h5.

Definition self_mu32 : h5.M t h5.MemsArrayH5.t := h5.getattr "array" "mu32" mu32.

(** [loadFile_fct(file)]: [selected] is [file.selected]. *)
Definition loadFile_fct (E : h5.env) (selected : option string) : h5.M t unit :=
  (h5.modify (set_filename (Some selected)) ;;
   obj <- h5.external_result (h5.MemsArrayH5_new selected) (h5.open_h5 E selected) ;;
   h5.modify (set_mu32 (Some obj)) ;;
   obj <- self_mu32 ;;
   h5.modify (set_fs (h5.MemsArrayH5.sampling_frequency obj)) ;;
   obj <- self_mu32 ;;
   h5.modify (set_file_duration (Some (h5.MemsArrayH5.file_duration obj))) ;;
   h5.modify (set_interspace (Some (6 # 100)%Q)) ;;
   self <- h5.get ;;
   d <- h5.getattr "array" "file_duration" file_duration ;;
   call_gui "update_data_info"
     (gui_play.update_data_info (h5.str (fs self)) (h5.str d)))%h5.

Definition play_fct (E : h5.env) (button : Button.t) : h5.M t unit :=
  (self <- h5.get ;;
   n <- h5.builtin (h5.int E (Text.value (gui_play.blocksize (gui self)))) ;;
   h5.modify (set_blocksize n) ;;
   obj <- self_mu32 ;;
   h5.modify (set_mems_nb (Some (Z.of_nat (length (h5.MemsArrayH5.mems obj))))) ;;
   _ <- self_mu32 ;;
   obj <- self_mu32 ;;
   self <- h5.get ;;
   h5.external
     (h5.Mu32_run
        (h5.mk_run (h5.MemsArrayH5.available_mems obj) 0 (blocksize self) true 0 "int32"))
     (h5.run_raises E) ;;
   call_gui "start_read" gui_play.start_read)%h5.

Definition stopplay_fct (E : h5.env) (button : Button.t) : h5.M t unit :=
  (_ <- self_mu32 ;;
   h5.external h5.Mu32_stop (h5.stop_raises E) ;;
   call_gui "stop_read" gui_play.stop_read)%h5.

End array_play.

(** ** A session of the playback front-end

    A callback is the selection of a file in the chooser, a click on Play
    or Stop, or an edit of the block size.  As on the server side, an
    exception that leaves a callback keeps the mutations made before it,
    and handlers are not guarded by the [disabled] trait. *)

Module play_session.

Import widgets.

Record world := mk
  { self : array_play.t;
    out : h5.trace }.

Inductive action :=
| select_file (path : string)
| click_play
| click_stop
| edit_blocksize (v : string).

Definition after {A} (o : h5.outcome array_play.t A) : world :=
  {| self := h5.state_of o; out := h5.trace_of o |}.

Definition edit (f : gui_play.t -> gui_play.t) (w : world) : world :=
  {| self := array_play.set_gui (f (array_play.gui (self w))) (self w); out := out w |}.

Definition exec (a : action) (E : h5.env) (w : world) : world :=
  match a with
  | select_file path =>
      let w := edit (gui_play.upd_file_selected (fun _ => Some path)) w in
      after (array_play.loadFile_fct E
               (gui_play.file_selected (array_play.gui (self w))) (self w) (out w))
  | click_play =>
      after (array_play.play_fct E
               (gui_play.button_startplay (array_play.gui (self w))) (self w) (out w))
  | click_stop =>
      after (array_play.stopplay_fct E
               (gui_play.button_stopplay (array_play.gui (self w))) (self w) (out w))
  | edit_blocksize v => edit (gui_play.upd_blocksize (Text.set_value v)) w
  end.

Definition initial : world := {| self := array_play.init; out := [] |}.

Inductive reachable : world -> Prop :=
| reachable_initial : reachable initial
| reachable_exec a E w : reachable w -> reachable (exec a E w).

Fixpoint run (l : list (action * h5.env)) (w : world) : world :=
  match l with
  | [] => w
  | (a, E) :: l' => run l' (exec a E w)
  end.

(** What every state of a playback session satisfies. *)
Record playback_invariant (w : world) : Prop := mk_inv
  { inv_blocksize_lock :
      Text.disabled (gui_play.blocksize (array_play.gui (self w))) =
        negb (Button.disabled (gui_play.button_stopplay (array_play.gui (self w))));
    inv_not_both :
      Button.disabled (gui_play.button_startplay (array_play.gui (self w)))
      || Button.disabled (gui_play.button_stopplay (array_play.gui (self w))) = true;
    inv_loaded :
      Button.disabled (gui_play.button_startplay (array_play.gui (self w))) = false \/
      Button.disabled (gui_play.button_stopplay (array_play.gui (self w))) = false ->
      array_play.mu32 (self w) <> None;
    inv_display :
      forall obj, array_play.mu32 (self w) = Some obj ->
        array_play.fs (self w) = h5.MemsArrayH5.sampling_frequency obj /\
        array_play.file_duration (self w) = Some (h5.MemsArrayH5.file_duration obj) /\
        Text.value (gui_play.fs (array_play.gui (self w))) =
          h5.str (h5.MemsArrayH5.sampling_frequency obj) }.

End play_session.

(** ** More of the server session *)

Module server_facts.

Import widgets.

(** The [disabled] flags of Start ACQ, Stop ACQ, Start Recording and
    Stop recording. *)
Definition acquisition_flags (g : gui_server.t) : list bool :=
  [ Button.disabled (gui_server.button_startacq g);
    Button.disabled (gui_server.button_stopacq g);
    Button.disabled (gui_server.button_startrec g);
    Button.disabled (gui_server.button_stoprec g) ].

Definition row_idle : list bool := [true; true; true; true].
Definition row_ready : list bool := [false; true; false; true].
Definition row_acquiring : list bool := [true; false; true; true].
Definition row_recording : list bool := [true; true; true; false].

(** The rows the four buttons can be in. *)
Definition rows : list (list bool) := [row_idle; row_ready; row_acquiring; row_recording].

(** What every state of a server session satisfies about the attributes
    set by Confirm and by the settings coroutine. *)
Record attributes_invariant (w : session.world) : Prop := mk_inv
  { inv_mems_list :
      array.mems_list (session.self w) = None \/
      exists k, (k < 4)%nat /\ array.mems_list (session.self w) = Some (spec.block k);
    inv_mems_nb :
      array.mems_nb (session.self w) = None \/ array.mems_nb (session.self w) = Some 8;
    inv_client :
      array.mems_list (session.self w) <> None -> array.mu32 (session.self w) <> None;
    inv_ready :
      session.at_or_past_ready w = true -> array.mems_list (session.self w) <> None }.

(** Can the user trigger the callback from the page?  A click needs its
    button enabled and an edit its input enabled; [read] is called from a
    cell and the settings coroutine is run by the event loop. *)
Definition clickable (a : session.action) (w : session.world) : bool :=
  let g := array.gui (session.self w) in
  match a with
  | session.click_connect => negb (Button.disabled (gui_server.button_connect g))
  | session.click_startacq => negb (Button.disabled (gui_server.button_startacq g))
  | session.click_stopacq => negb (Button.disabled (gui_server.button_stopacq g))
  | session.click_startrec => negb (Button.disabled (gui_server.button_startrec g))
  | session.click_stoprec => negb (Button.disabled (gui_server.button_stoprec g))
  | session.click_sos => negb (Button.disabled (gui_server.button_sos g))
  | session.click_start_srv => negb (Button.disabled (gui_server.button_start_srv g))
  | session.click_stop_srv => negb (Button.disabled (gui_server.button_stop_srv g))
  | session.run_settings_task => true
  | session.call_read => true
  | session.edit_ip _ => negb (Text.disabled (gui_server.ip g))
  | session.edit_port _ => negb (Text.disabled (gui_server.port g))
  | session.select_array_nb _ => negb (Dropdown.disabled (gui_server.array_nb g))
  | session.edit_passwd _ => negb (Password.disabled (gui_server.passwd g))
  end.

(** The states the user reaches from [w0] through the page. *)
Inductive reachable_by_clicks (w0 : session.world) : session.world -> Prop :=
| clicks_none : reachable_by_clicks w0 w0
| clicks_step a E w :
    reachable_by_clicks w0 w -> clickable a w = true ->
    reachable_by_clicks w0 (session.exec a E w).

(** The acquisition controls are all off, Confirm is off and no settings
    task is waiting to run. *)
Record acquisition_off (w : session.world) : Prop := mk_off
  { off_flags : acquisition_flags (array.gui (session.self w)) = row_idle;
    off_connect :
      Button.disabled (gui_server.button_connect (array.gui (session.self w))) = true;
    off_tasks : (session.tasks_created (session.out w) <= session.tasks_run w)%nat }.

(** An outside world where the client's [halt], the queue read and the SSH
    connection all raise a timeout and the settings come without
    'frame_length'. *)
Definition timed_out : py.exn := py.mk_exn "TimeoutError" "timed out".

Definition unreliable : py.env :=
  {| py.run_raises := None;
     py.halt_raises := Some timed_out;
     py.h5_start_raises := None;
     py.h5_stop_raises := None;
     py.signal_q_get_result := inl timed_out;
     py.sensibility := (1 # 1000)%Q;
     py.settings_result := inr [("sampling_frequency", 50000)];
     py.connect_raises := Some timed_out;
     py.exec_command_result := inl timed_out |}.


(** The user interrupts the kernel while [run] is in progress. *)
Definition interrupted : py.exn := py.mk_base_exn "KeyboardInterrupt" EmptyString.

Definition run_interrupted : py.env :=
  {| py.run_raises := Some interrupted;
     py.halt_raises := None;
     py.h5_start_raises := None;
     py.h5_stop_raises := None;
     py.signal_q_get_result := inr (py.frame [[5; 6]]);
     py.sensibility := (1 # 1000)%Q;
     py.settings_result := inr [("sampling_frequency", 50000); ("frame_length", 512)];
     py.connect_raises := None;
     py.exec_command_result := inr gui_server.active_lines |}.

(** The settings fetch of a callback completed: the awaited future gave a
    dict that holds both keys the coroutine reads. *)
Definition settings_delivered (E : py.env) : Prop :=
  exists settings f b,
    py.settings_result E = inr settings /\
    py.dict_lookup settings "sampling_frequency" = Some f /\
    py.dict_lookup settings "frame_length" = Some b.

(** Somewhere in the history the settings coroutine ran and its fetch
    completed. *)
Definition fetch_completed (l : list (session.action * py.env)) : Prop :=
  exists E, In (session.run_settings_task, E) l /\ settings_delivered E.

(** The SSH session opens, the command itself fails. *)
Definition exec_fails : py.env :=
  {| py.run_raises := None;
     py.halt_raises := None;
     py.h5_start_raises := None;
     py.h5_stop_raises := None;
     py.signal_q_get_result := inr (py.frame [[5; 6]]);
     py.sensibility := (1 # 1000)%Q;
     py.settings_result := inl timed_out;
     py.connect_raises := None;
     py.exec_command_result := inl timed_out |}.

End server_facts.

(** ** Concrete playback sessions *)

Module play_examples.

(** [int] on texts made of decimal digits only; anything else is refused
    with ValueError.  It stands for the builtin in the examples, which use
    it on '2048' and on '2k' only: the builtin also accepts a sign,
    surrounding whitespace and underscores between digits. *)
Fixpoint digits (s : string) (acc : Z) : option Z :=
  match s with
  | EmptyString => Some acc
  | String c s' =>
      let n := Z.of_nat (nat_of_ascii c) in
      if (48 <=? n) && (n <=? 57) then digits s' (10 * acc + (n - 48)) else None
  end.

Definition invalid_literal (s : string) : py.exn :=
  py.mk_exn "ValueError" ("invalid literal for int() with base 10: '" ++ s ++ "'").

Definition int_of_digits (s : string) : py.exn + Z :=
  match s with
  | EmptyString => inl (invalid_literal s)
  | _ =>
      match digits s 0 with
      | Some n => inr n
      | None => inl (invalid_literal s)
      end
  end.

Definition recording : h5.MemsArrayH5.t :=
  h5.MemsArrayH5.mk (h5.int_ 50000) (h5.float_ "12.5") [0; 1; 2; 3] [0; 1; 2; 3].

(** One readable file; every other path fails to open. *)
Definition disk : h5.env :=
  {| h5.open_h5 := fun sel =>
       match sel with
       | Some "take1.h5" => inr recording
       | _ => inl (py.mk_exn "FileNotFoundError" "no such file")
       end;
     h5.run_raises := None;
     h5.stop_raises := None;
     h5.int := int_of_digits |}.

Definition loaded : play_session.world :=
  play_session.run [(play_session.select_file "take1.h5", disk)] play_session.initial.

End play_examples.

(** * Properties *)

(** ** Evaluation lemmas shared by the statements below *)

Lemma validateAcq_fct_cases (button : widgets.Button.t) (self : array.t) (tr : py.trace) :
  let host := widgets.Text.value (gui_server.ip (array.gui self)) in
  let port := widgets.Text.value (gui_server.port (array.gui self)) in
  let selector := widgets.Dropdown.value (gui_server.array_nb (array.gui self)) in
  let connected := array.set_mu32 (Some (array.mk_mu32 host port)) self in
  array.validateAcq_fct button self tr =
  match spec.selector_index selector with
  | Some k =>
      py.Returned tt (array.set_mems_list (Some (spec.block k)) connected)
        (tr ++ [py.MemsArrayWS_new host port;
                py.Create_task "validateAcq_fct_settings"])%list
  | None =>
      py.Returned tt connected
        (tr ++ [py.MemsArrayWS_new host port;
                py.print "ERROR: bad array number selected."])%list
  end.
Proof.
  intros host port selector connected.
  unfold array.validateAcq_fct, spec.selector_index, py.bind, py.get, py.emit,
    py.modify, py.ret.
  cbn [array.gui array.set_mu32].
  fold selector host port connected.
  cbn [spec.index_of widgets.Dropdown.options gui_server.array_nb gui_server.init].
  destruct (String.eqb selector "F0");
    [ rewrite <- app_assoc; reflexivity | ].
  destruct (String.eqb selector "F1");
    [ rewrite <- app_assoc; reflexivity | ].
  destruct (String.eqb selector "F2");
    [ rewrite <- app_assoc; reflexivity | ].
  destruct (String.eqb selector "F3");
    rewrite <- app_assoc; reflexivity.
Qed.

Lemma selector_index_bound (v : string) (k : nat) :
  spec.selector_index v = Some k -> (k < 4)%nat.
Proof.
  unfold spec.selector_index; cbn.
  repeat (destruct (String.eqb v _); [ intros [= <-]; lia | ]).
  discriminate.
Qed.

Lemma selector_index_known (v : string) :
  spec.selector_index v <> None <->
  In v (widgets.Dropdown.options (gui_server.array_nb gui_server.init)).
Proof.
  unfold spec.selector_index; cbn.
  split.
  - intros H.
    destruct (String.eqb_spec v "F0"); [ auto | ].
    destruct (String.eqb_spec v "F1"); [ auto | ].
    destruct (String.eqb_spec v "F2"); [ auto | ].
    destruct (String.eqb_spec v "F3"); [ auto 6 | ].
    contradiction.
  - intros [<- | [<- | [<- | [<- | []]]]]; discriminate.
Qed.

Example selector_blocks :
  spec.selector_index "F0" = Some 0%nat /\ spec.block 0 = [0; 1; 2; 3; 4; 5; 6; 7] /\
  spec.selector_index "F1" = Some 1%nat /\ spec.block 1 = [8; 9; 10; 11; 12; 13; 14; 15] /\
  spec.selector_index "F2" = Some 2%nat /\
  spec.block 2 = [16; 17; 18; 19; 20; 21; 22; 23] /\
  spec.selector_index "F3" = Some 3%nat /\
  spec.block 3 = [24; 25; 26; 27; 28; 29; 30; 31].
Proof. repeat split; reflexivity. Qed.

(** ** The array selector *)

(** C1, as the code has it.  [validateAcq_fct] first rebinds [self.mu32] to
    a client built from the displayed address and port.  Then, for the
    selector of index [k] among the dropdown's options it sets
    [self.mems_list] to the 8 ascending indices from [k * 8] and creates the
    settings task; for a value outside the options it prints the error and
    returns with [mems_list], the view and every other attribute as they
    were and no task created: the rebinding of [mu32] is the one change. *)
Theorem validateAcq_fct_selector_block (button : widgets.Button.t) (self : array.t)
    (tr : py.trace) :
  let host := widgets.Text.value (gui_server.ip (array.gui self)) in
  let port := widgets.Text.value (gui_server.port (array.gui self)) in
  let selector := widgets.Dropdown.value (gui_server.array_nb (array.gui self)) in
  let o := array.validateAcq_fct button self tr in
  match spec.selector_index selector with
  | Some k =>
      (k < 4)%nat /\
      length (spec.block k) = 8%nat /\
      (forall i, (i < 8)%nat ->
         nth_error (spec.block k) i = Some (Z.of_nat k * 8 + Z.of_nat i)) /\
      o = py.Returned tt
            (array.set_mems_list (Some (spec.block k))
               (array.set_mu32 (Some (array.mk_mu32 host port)) self))
            (tr ++ [py.MemsArrayWS_new host port;
                    py.Create_task "validateAcq_fct_settings"])%list
  | None =>
      o = py.Returned tt (array.set_mu32 (Some (array.mk_mu32 host port)) self)
            (tr ++ [py.MemsArrayWS_new host port;
                    py.print "ERROR: bad array number selected."])%list /\
      array.mems_list (py.state_of o) = array.mems_list self /\
      array.gui (py.state_of o) = array.gui self /\
      array.fs (py.state_of o) = array.fs self /\
      array.blocksize (py.state_of o) = array.blocksize self /\
      array.mems_nb (py.state_of o) = array.mems_nb self /\
      array.interspace (py.state_of o) = array.interspace self /\
      array.m (py.state_of o) = array.m self /\
      array.mu32 (py.state_of o) = Some (array.mk_mu32 host port)
  end.
Proof.
  intros host port selector o.
  pose proof (validateAcq_fct_cases button self tr) as Hcases.
  cbv zeta in Hcases. fold host port selector o in Hcases.
  destruct (spec.selector_index selector) as [k | ] eqn:Hk.
  - pose proof (selector_index_bound _ _ Hk) as Hlt.
    split; [ exact Hlt | ].
    split; [ reflexivity | ].
    split; [ | exact Hcases ].
    intros i Hi.
    do 8 (destruct i as [ | i]; [ reflexivity | ]). lia.
  - rewrite Hcases. repeat split.
Qed.

(** C1 as stated fails where it says that an unrecognised selector leaves
    the state as it was: on a controller that has no client yet and whose
    dropdown holds 'F4', the call returns with [self.mu32] bound. *)
Lemma validateAcq_fct_unknown_selector_rebinds_mu32 :
  let self := examples.bad_selector in
  let o := array.validateAcq_fct (gui_server.button_connect (array.gui self)) self [] in
  spec.selector_index (widgets.Dropdown.value (gui_server.array_nb (array.gui self)))
    = None /\
  array.mu32 self = None /\
  array.mu32 (py.state_of o) = Some (array.mk_mu32 "10.3.141.1" "9002") /\
  py.state_of o <> self.
Proof.
  cbv zeta.
  split; [ reflexivity | ].
  split; [ reflexivity | ].
  split; [ reflexivity | ].
  intros H. apply (f_equal array.mu32) in H. discriminate H.
Qed.

(** ** The views *)

(** C2.  Once the SSH session is open and the status command has returned
    its output lines, [sos] returns, and: if the lines are exactly
    ['active\n'] the status reads 'Server = OK', the start-server button is
    disabled and the stop-server button enabled; for any other lines the
    status reads 'Server = ERROR', start-server is enabled and stop-server
    disabled. *)
Theorem sos_status_probe (E : py.env) (button : widgets.Button.t) (g : gui_server.t)
    (tr : py.trace) (srv : list string) :
  py.connect_raises E = None ->
  py.exec_command_result E = inr srv ->
  exists g' tr',
    gui_server.sos E button g tr = py.Returned tt g' tr' /\
    (srv = ["active" ++ String (ascii_of_nat 10) EmptyString] ->
       widgets.HTML.value (gui_server.status_sos g') = "Server = OK" /\
       widgets.Button.disabled (gui_server.button_start_srv g') = true /\
       widgets.Button.disabled (gui_server.button_stop_srv g') = false) /\
    (srv <> ["active" ++ String (ascii_of_nat 10) EmptyString] ->
       widgets.HTML.value (gui_server.status_sos g') = "Server = ERROR" /\
       widgets.Button.disabled (gui_server.button_start_srv g') = false /\
       widgets.Button.disabled (gui_server.button_stop_srv g') = true).
Proof.
  intros Hconnect Hexec.
  unfold gui_server.sos, py.bind, py.modify, py.emit, py.get, py.external,
    py.external_result.
  rewrite Hconnect, Hexec.
  eexists; eexists. split; [ reflexivity | ].
  unfold gui_server.sos_probe.
  fold gui_server.active_lines.
  destruct (list_eq_dec string_dec srv gui_server.active_lines) as [Heq | Hne].
  - split; [ intros _; repeat split | intros Hsrv; contradiction ].
  - split; [ intros Hsrv; contradiction | intros _; repeat split ].
Qed.

Lemma sos_status_probe_witness :
  exists g' tr',
    gui_server.sos examples.nothing_queued (gui_server.button_sos gui_server.init)
      gui_server.init [] = py.Returned tt g' tr' /\
    widgets.HTML.value (gui_server.status_sos g') = "Server = ERROR" /\
    widgets.Button.disabled (gui_server.button_start_srv g') = false /\
    widgets.Button.disabled (gui_server.button_stop_srv g') = true.
Proof.
  destruct (sos_status_probe examples.nothing_queued
              (gui_server.button_sos gui_server.init) gui_server.init []
              ["inactive" ++ String (ascii_of_nat 10) EmptyString]
              eq_refl eq_refl) as (g' & tr' & Hrun & _ & Herr).
  exists g', tr'. split; [ exact Hrun | ].
  apply Herr. discriminate.
Defined.

(** C9.  In the playback view [update_data_info] shows the sampling
    frequency and the duration text, enables Play and disables Stop;
    [start_read] disables Play and enables Stop; [stop_read] enables Play
    and disables Stop.  After each of the three exactly one of the two
    buttons is enabled. *)
Theorem gui_play_play_stop_flip (g : gui_play.t) (fs duration : string) :
  let loaded := gui_play.update_data_info fs duration g in
  let playing := gui_play.start_read g in
  let stopped := gui_play.stop_read g in
  (widgets.Text.value (gui_play.fs loaded) = fs /\
   widgets.HTML.value (gui_play.status loaded) = "File duration = " ++ duration ++ "s." /\
   widgets.Button.disabled (gui_play.button_startplay loaded) = false /\
   widgets.Button.disabled (gui_play.button_stopplay loaded) = true) /\
  (widgets.Button.disabled (gui_play.button_startplay playing) = true /\
   widgets.Button.disabled (gui_play.button_stopplay playing) = false) /\
  (widgets.Button.disabled (gui_play.button_startplay stopped) = false /\
   widgets.Button.disabled (gui_play.button_stopplay stopped) = true) /\
  (forall g', In g' [loaded; playing; stopped] ->
     widgets.Button.disabled (gui_play.button_startplay g') =
     negb (widgets.Button.disabled (gui_play.button_stopplay g'))).
Proof.
  intros loaded playing stopped.
  repeat split.
  intros g' [<- | [<- | [<- | []]]]; reflexivity.
Qed.

(** ** The controller's callbacks *)

Ltac py_unfold :=
  cbv beta iota delta
    [py.try_except py.bind py.get py.modify py.emit py.ret py.raise py.external
     py.external_result py.getattr py.str_add py.zoom py.getitem
     array.call_gui array.self_mu32 array.self_mems_list
     array.startacq_fct array.stopacq_fct array.startrec_fct array.stoprec_fct
     array.read array.sos_fct array.gui_sos array.validateAcq_fct_settings
     gui_server.sos].

Ltac array_simpl :=
  cbn [array.fs array.blocksize array.gui array.mu32 array.mems_list array.mems_nb
       array.interspace array.m array.set_fs array.set_blocksize array.set_gui
       array.set_mu32 array.set_mems_list array.set_mems_nb array.set_interspace
       array.set_m].

(** Split on the innermost undecided test of the goal, reusing what earlier
    splits have fixed. *)
Ltac py_case :=
  array_simpl;
  match goal with
  | H : ?x = _ |- context [match ?x with _ => _ end] => rewrite H
  | |- context [match ?x with _ => _ end] =>
      lazymatch x with
      | context [match _ with _ => _ end] => fail
      | _ => destruct x eqn:?
      end
  end.

Ltac py_assoc := repeat rewrite <- app_assoc; cbn [app].

(** C4.  With a client and a microphone list in place, [startacq_fct]
    calls [run] once.  If [run] raises an [e] that [except Exception]
    catches, the callback returns, the status text is 'Aborting: ' followed
    by [str(e)], and no [disabled] trait of the view has changed; the
    view's [start_acq] is applied only when [run] has returned. *)
Theorem startacq_fct_failure_keeps_enablement (E : py.env) (button : widgets.Button.t)
    (self : array.t) (tr : py.trace) (h : array.MemsArrayWS) (l : list Z) :
  array.mu32 self = Some h ->
  array.mems_list self = Some l ->
  let call := py.Mu32_run (py.mk_run l 0 None None None None 1 "listen") in
  match py.run_raises E with
  | Some e =>
      py.Exception e = true ->
      let g' := gui_server.update_status ("Aborting: " ++ py.str_exn e) (array.gui self) in
      array.startacq_fct E button self tr =
        py.Returned tt (array.set_gui g' self)
          (tr ++ [call; py.ViewCall "update_status"])%list /\
      spec.contains (widgets.HTML.value (gui_server.status g')) (py.str_exn e) /\
      gui_server.enablement g' = gui_server.enablement (array.gui self)
  | None =>
      array.startacq_fct E button self tr =
        py.Returned tt (array.set_gui (gui_server.start_acq (array.gui self)) self)
          (tr ++ [call; py.ViewCall "start_acq"])%list
  end.
Proof.
  intros Hmu32 Hmems call.
  py_unfold.
  rewrite Hmu32, Hmems.
  destruct (py.run_raises E) as [e | ].
  - intros Hexc. rewrite Hexc. cbn. py_assoc. split; [ reflexivity | ].
    split; [ | reflexivity ].
    exists "Aborting: ", EmptyString.
    cbn. clear. induction (py.str_exn e) as [ | c s IH]; cbn; [ reflexivity | ].
    injection IH as IH. rewrite <- IH. reflexivity.
  - cbn. py_assoc. reflexivity.
Qed.

Lemma startacq_fct_failure_keeps_enablement_witness :
  let self := session.self examples.ready in
  let g' := gui_server.update_status "Aborting: server unreachable" (array.gui self) in
  array.startacq_fct examples.run_fails (gui_server.button_startacq (array.gui self))
    self [] =
    py.Returned tt (array.set_gui g' self)
      [py.Mu32_run (py.mk_run [0; 1; 2; 3; 4; 5; 6; 7] 0 None None None None 1 "listen");
       py.ViewCall "update_status"] /\
  spec.contains (widgets.HTML.value (gui_server.status g')) "server unreachable" /\
  gui_server.enablement g' = gui_server.enablement (array.gui self).
Proof.
  exact (startacq_fct_failure_keeps_enablement examples.run_fails
           (gui_server.button_startacq (array.gui (session.self examples.ready)))
           (session.self examples.ready) []
           (array.mk_mu32 "10.3.141.1" "9002") [0; 1; 2; 3; 4; 5; 6; 7]
           eq_refl eq_refl eq_refl).
Defined.

(** What [except Exception] does not catch leaves [startacq_fct]: an
    interrupt raised while [run] is in progress propagates, and the
    controller and its view are as they were. *)
Lemma startacq_fct_lets_interrupt_through (E : py.env) (button : widgets.Button.t)
    (self : array.t) (tr : py.trace) (h : array.MemsArrayWS) (l : list Z) (e : py.exn) :
  array.mu32 self = Some h ->
  array.mems_list self = Some l ->
  py.run_raises E = Some e ->
  py.Exception e = false ->
  array.startacq_fct E button self tr =
    py.Raised e self
      (tr ++ [py.Mu32_run (py.mk_run l 0 None None None None 1 "listen")])%list.
Proof.
  intros Hmu32 Hmems Hrun Hexc. py_unfold. rewrite Hmu32, Hmems, Hrun, Hexc. reflexivity.
Qed.

Example startacq_fct_interrupted :
  array.startacq_fct server_facts.run_interrupted
    (gui_server.button_startacq (array.gui (session.self examples.ready)))
    (session.self examples.ready) [] =
  py.Raised server_facts.interrupted (session.self examples.ready)
    [py.Mu32_run (py.mk_run [0; 1; 2; 3; 4; 5; 6; 7] 0 None None None None 1 "listen")].
Proof. reflexivity. Qed.

(** C5.  When the queue read of [read] times out, that is when
    [signal_q.get(timeout=5)] raises [queue.Empty], [read] does not raise:
    it returns None, [self.m] and every other attribute of the controller
    but the view are as before, and the view's status text is
    'ERROR: No data available'. *)
Theorem read_timeout_returns_nothing (E : py.env) (self : array.t) (tr : py.trace)
    (h : array.MemsArrayWS) (e : py.exn) :
  array.mu32 self = Some h ->
  py.signal_q_get_result E = inl e ->
  py.Empty e = true ->
  let self' :=
    array.set_gui (gui_server.update_status "ERROR: No data available" (array.gui self))
      self in
  array.read E self tr =
    py.Returned None self' (tr ++ [py.Signal_q_get 5; py.ViewCall "update_status"])%list /\
  array.m self' = array.m self /\
  widgets.HTML.value (gui_server.status (array.gui self')) = "ERROR: No data available".
Proof.
  intros Hmu32 Hget Hempty self'.
  py_unfold.
  rewrite Hmu32, Hget, Hempty.
  py_assoc. repeat split.
Qed.

Lemma read_timeout_returns_nothing_witness :
  let self := session.self examples.ready in
  let self' :=
    array.set_gui (gui_server.update_status "ERROR: No data available" (array.gui self))
      self in
  array.read examples.nothing_queued self [] =
    py.Returned None self' [py.Signal_q_get 5; py.ViewCall "update_status"] /\
  array.m self' = array.m self /\
  widgets.HTML.value (gui_server.status (array.gui self')) = "ERROR: No data available".
Proof.
  exact (read_timeout_returns_nothing examples.nothing_queued
           (session.self examples.ready) []
           (array.mk_mu32 "10.3.141.1" "9002") (py.mk_exn "Empty" EmptyString)
           eq_refl eq_refl eq_refl).
Defined.

(** C3, on the code.  [startrec_fct] applies the view's [start_rec] before
    it calls the client.  When [run] or [h5_start] then raises an [e] that
    [except Exception] catches, the handler evaluates ['Aborting: ' + e] with [e] the exception object, not
    its text: that addition raises TypeError, [update_status] is never
    reached, and the callback ends by raising with the view in the
    Recording state and the status text still 'Recording to file...'. *)
Theorem startrec_fct_failure_raises_TypeError (E : py.env) (button : widgets.Button.t)
    (self : array.t) (tr : py.trace) (h : array.MemsArrayWS) (l : list Z) (e : py.exn) :
  array.mu32 self = Some h ->
  array.mems_list self = Some l ->
  py.run_raises E = Some e \/ (py.run_raises E = None /\ py.h5_start_raises E = Some e) ->
  py.Exception e = true ->
  let o := array.startrec_fct E button self tr in
  let call :=
    py.Mu32_run (py.mk_run l 0 (Some true) (Some false) (Some "./") (Some false)
                   0 "listen") in
  (exists tr',
     o = py.Raised
           (py.TypeError ("can only concatenate str (not " ++ py.dquote
                            ++ py.exc_class e ++ py.dquote ++ ") to str"))
           (array.set_gui (gui_server.start_rec (array.gui self)) self)
           (tr ++ py.ViewCall "start_rec" :: call :: tr')%list /\
     (tr' = [] \/ tr' = [py.Mu32_h5_start])) /\
  gui_server.acquisition_buttons (array.gui (py.state_of o)) =
    [widgets.Button.disabled (gui_server.button_connect (array.gui self));
     true; true; true; false] /\
  widgets.HTML.value (gui_server.status (array.gui (py.state_of o))) =
    "Recording to file...".
Proof.
  intros Hmu32 Hmems Hfail Hexc o call. subst o.
  py_unfold. array_simpl. rewrite Hmu32. array_simpl. rewrite Hmems.
  destruct Hfail as [Hrun | [Hrun Hh5]].
  - rewrite Hrun, Hexc. py_assoc.
    split; [ exists []; split; [ reflexivity | left; reflexivity ] | ].
    split; reflexivity.
  - rewrite Hrun. array_simpl. rewrite Hmu32, Hh5, Hexc. py_assoc.
    split; [ exists [py.Mu32_h5_start]; split; [ reflexivity | right; reflexivity ] | ].
    split; reflexivity.
Qed.

Lemma startrec_fct_failure_raises_TypeError_witness :
  let self := session.self examples.ready in
  let o :=
    array.startrec_fct examples.run_fails (gui_server.button_startrec (array.gui self))
      self [] in
  (exists tr',
     o = py.Raised
           (py.TypeError ("can only concatenate str (not " ++ py.dquote
                            ++ "ConnectionError" ++ py.dquote ++ ") to str"))
           (array.set_gui (gui_server.start_rec (array.gui self)) self)
           (py.ViewCall "start_rec"
              :: py.Mu32_run
                   (py.mk_run [0; 1; 2; 3; 4; 5; 6; 7] 0 (Some true) (Some false)
                      (Some "./") (Some false) 0 "listen")
              :: tr') /\
     (tr' = [] \/ tr' = [py.Mu32_h5_start])) /\
  gui_server.acquisition_buttons (array.gui (py.state_of o)) =
    [true; true; true; true; false] /\
  widgets.HTML.value (gui_server.status (array.gui (py.state_of o))) =
    "Recording to file...".
Proof.
  exact (startrec_fct_failure_raises_TypeError examples.run_fails
           (gui_server.button_startrec (array.gui (session.self examples.ready)))
           (session.self examples.ready) []
           (array.mk_mu32 "10.3.141.1" "9002") [0; 1; 2; 3; 4; 5; 6; 7]
           examples.refused eq_refl eq_refl (or_introl eq_refl) eq_refl).
Defined.





(** C8.  With the password field empty, [sos_fct] prints its message and
    returns: the controller and its view are untouched and nothing but the
    printed line is added to the trace, so no SSH session is opened and no
    command is sent.  With a password typed in, the callback goes on to
    open the session with that password. *)
Theorem sos_fct_empty_password_returns_early (E : py.env) (button : widgets.Button.t)
    (self : array.t) (tr : py.trace) :
  let pw := widgets.Password.value (gui_server.passwd (array.gui self)) in
  (pw = EmptyString ->
   array.sos_fct E button self tr =
     py.Returned tt self
       (tr ++ [py.print "ERROR: please indicate the password to launch the command."])
       %list) /\
  (pw <> EmptyString ->
   exists tr',
     py.trace_of (array.sos_fct E button self tr) =
       (tr ++ py.SSH_set_missing_host_key_policy "AutoAddPolicy"
           :: py.SSH_connect (widgets.Text.value (gui_server.ip (array.gui self)))
                "root" pw 5
           :: tr')%list).
Proof.
  intros pw. split.
  - intros Hpw. py_unfold. fold pw. rewrite Hpw. reflexivity.
  - intros Hpw. py_unfold. fold pw.
    apply String.eqb_neq in Hpw. rewrite Hpw.
    destruct (py.connect_raises E).
    + exists []. cbn. py_assoc. reflexivity.
    + destruct (String.eqb (widgets.Button.description button) "ADMIN: Stop server");
        [ | destruct (String.eqb (widgets.Button.description button)
                        "ADMIN: Start server") ];
        destruct (py.exec_command_result E);
        cbn; py_assoc; eexists; reflexivity.
Qed.

Lemma sos_fct_empty_password_returns_early_witness :
  array.sos_fct examples.all_fine
    (gui_server.button_stop_srv (array.gui (session.self examples.ready)))
    (session.self examples.ready) [] =
  py.Returned tt (session.self examples.ready)
    [py.print "ERROR: please indicate the password to launch the command."].
Proof.
  exact (proj1 (sos_fct_empty_password_returns_early examples.all_fine
                  (gui_server.button_stop_srv (array.gui (session.self examples.ready)))
                  (session.self examples.ready) [])
               eq_refl).
Defined.

(** C10.  Past the password test and with the SSH session open, [sos_fct]
    chooses its command from the description of the button it was given.
    A description that is neither 'ADMIN: Stop server' nor
    'ADMIN: Start server' prints 'Unkown button...' and still sends the
    command 'ls' to the host, leaving the controller and every widget as
    they were.  'ADMIN: Stop server' sends the systemctl stop command and
    leaves Start server enabled and Stop server disabled;
    'ADMIN: Start server' sends the systemctl start command and leaves
    Start server disabled and Stop server enabled; in both cases nothing
    else of the controller or the view changes. *)
Theorem sos_fct_unknown_button_runs_ls (E : py.env) (button : widgets.Button.t)
    (self : array.t) (tr : py.trace) :
  let pw := widgets.Password.value (gui_server.passwd (array.gui self)) in
  let host := widgets.Text.value (gui_server.ip (array.gui self)) in
  let d := widgets.Button.description button in
  let o := array.sos_fct E button self tr in
  let g' := array.gui (py.state_of o) in
  let opened :=
    (tr ++ [py.SSH_set_missing_host_key_policy "AutoAddPolicy";
            py.SSH_connect host "root" pw 5])%list in
  let closed :=
    match py.exec_command_result E with inr _ => [py.SSH_close] | inl _ => [] end in
  let switched (start_disabled stop_disabled : bool) :=
    array.set_gui
      (gui_server.upd_button_stop_srv (widgets.Button.set_disabled stop_disabled)
         (gui_server.upd_button_start_srv (widgets.Button.set_disabled start_disabled)
            (array.gui self)))
      self in
  pw <> EmptyString ->
  py.connect_raises E = None ->
  (d <> "ADMIN: Stop server" -> d <> "ADMIN: Start server" ->
   py.state_of o = self /\
   py.trace_of o =
     (opened ++ [py.print "Unkown button..."; py.SSH_exec_command "ls"] ++ closed)%list)
  /\
  (d = "ADMIN: Stop server" ->
   py.state_of o = switched false true /\
   widgets.Button.disabled (gui_server.button_start_srv g') = false /\
   widgets.Button.disabled (gui_server.button_stop_srv g') = true /\
   py.trace_of o =
     (opened ++ [py.SSH_exec_command "systemctl stop megamicros_server"] ++ closed)%list)
  /\
  (d = "ADMIN: Start server" ->
   py.state_of o = switched true false /\
   widgets.Button.disabled (gui_server.button_start_srv g') = true /\
   widgets.Button.disabled (gui_server.button_stop_srv g') = false /\
   py.trace_of o =
     (opened ++ [py.SSH_exec_command "systemctl start megamicros_server"] ++ closed)
     %list).
Proof.
  intros pw host d o g' opened closed switched Hpw Hconnect.
  apply String.eqb_neq in Hpw.
  subst g' o opened closed switched. py_unfold. fold pw host d.
  rewrite Hpw, Hconnect.
  split; [ | split ].
  - intros Hstop Hstart.
    apply String.eqb_neq in Hstop, Hstart. rewrite Hstop, Hstart.
    destruct (py.exec_command_result E); cbn; py_assoc; split; reflexivity.
  - intros ->. cbn [String.eqb Ascii.eqb Bool.eqb].
    destruct (py.exec_command_result E); cbn; py_assoc; repeat split.
  - intros ->. cbn [String.eqb Ascii.eqb Bool.eqb].
    destruct (py.exec_command_result E); cbn; py_assoc; repeat split.
Qed.

Lemma sos_fct_unknown_button_runs_ls_witness :
  let self := examples.ready_with_password in
  let o := array.sos_fct examples.all_fine examples.stray_button self [] in
  let stop :=
    array.sos_fct examples.all_fine (gui_server.button_stop_srv (array.gui self)) self []
  in
  (py.state_of o = self /\
   py.trace_of o =
     [py.SSH_set_missing_host_key_policy "AutoAddPolicy";
      py.SSH_connect "10.3.141.1" "root" "secret" 5;
      py.print "Unkown button...";
      py.SSH_exec_command "ls";
      py.SSH_close]) /\
  (widgets.Button.disabled (gui_server.button_start_srv (array.gui (py.state_of stop)))
     = false /\
   widgets.Button.disabled (gui_server.button_stop_srv (array.gui (py.state_of stop)))
     = true /\
   py.trace_of stop =
     [py.SSH_set_missing_host_key_policy "AutoAddPolicy";
      py.SSH_connect "10.3.141.1" "root" "secret" 5;
      py.SSH_exec_command "systemctl stop megamicros_server";
      py.SSH_close]).
Proof.
  split.
  - refine (proj1 (sos_fct_unknown_button_runs_ls examples.all_fine
                     examples.stray_button examples.ready_with_password [] _ eq_refl)
              _ _);
      discriminate.
  - refine (match proj1 (proj2 (sos_fct_unknown_button_runs_ls examples.all_fine
                     (gui_server.button_stop_srv (array.gui examples.ready_with_password))
                     examples.ready_with_password [] _ eq_refl)) eq_refl
            with conj _ (conj Hstart (conj Hstop Htrace)) =>
              conj Hstart (conj Hstop Htrace)
            end).
    discriminate.
Defined.

(** ** Sessions *)

Lemma view_called_app (method : string) (tr tr' : py.trace) :
  session.view_called method (tr ++ tr')%list =
  session.view_called method tr || session.view_called method tr'.
Proof. apply existsb_app. Qed.

Lemma settings_requested_app (tr tr' : py.trace) :
  session.settings_requested (tr ++ tr')%list =
  session.settings_requested tr || session.settings_requested tr'.
Proof. apply existsb_app. Qed.

Lemma select_keeps_disabled (v : string) (w : widgets.Dropdown.t) :
  widgets.Dropdown.disabled (widgets.Dropdown.select v w) = widgets.Dropdown.disabled w.
Proof.
  unfold widgets.Dropdown.select.
  destruct (in_dec string_dec v (widgets.Dropdown.options w)); reflexivity.
Qed.

Lemma connection_inputs_initial : session.connection_inputs_invariant session.initial.
Proof.
  constructor; try reflexivity.
  - discriminate.
  - split; [ discriminate | intros H; contradiction H; reflexivity ].
Qed.

Ltac inv_finish :=
  unfold session.at_or_past_ready, session.sos_entered in *;
  cbn [session.self session.out py.state_of py.trace_of] in *;
  py_assoc; array_simpl;
  rewrite ?view_called_app, ?settings_requested_app;
  cbn;
  rewrite ?orb_false_r, ?orb_true_r.

Ltac inv_callback :=
  py_unfold; unfold gui_server.sos_probe;
  repeat py_case; constructor; inv_finish; auto.

Lemma connection_inputs_exec (a : session.action) (E : py.env) (w : session.world) :
  session.connection_inputs_invariant w ->
  session.connection_inputs_invariant (session.exec a E w).
Proof.
  intros [Hip Hport Hnb Hconnect Hfetched Hspace].
  destruct a; unfold session.exec, session.after, session.edit.
  - (* Confirm *)
    rewrite validateAcq_fct_cases.
    destruct (spec.selector_index _); constructor; inv_finish; auto.
  - (* Start ACQ *) inv_callback.
  - (* Stop ACQ *) inv_callback.
  - (* Start Recording *) inv_callback.
  - (* Stop recording *) inv_callback.
  - (* SOS *) inv_callback.
  - (* ADMIN: Start server *) inv_callback.
  - (* ADMIN: Stop server *) inv_callback.
  - (* the settings task *)
    destruct (_ <? _)%nat; [ | constructor; assumption ].
    inv_callback.
    split; [ discriminate | reflexivity ].
  - (* read *) inv_callback.
  - constructor; inv_finish; auto.
  - constructor; inv_finish; auto.
  - constructor; inv_finish; rewrite ?select_keeps_disabled; auto.
  - constructor; inv_finish; auto.
Qed.

Lemma connection_inputs_reachable (w : session.world) :
  session.reachable w -> session.connection_inputs_invariant w.
Proof.
  induction 1 as [ | a E w Hw IH].
  - exact connection_inputs_initial.
  - apply connection_inputs_exec. exact IH.
Qed.

Lemma run_app (l l' : list (session.action * py.env)) (w : session.world) :
  session.run (l ++ l')%list w = session.run l' (session.run l w).
Proof.
  revert w. induction l as [ | [a E] l IH]; intros w; cbn; [ reflexivity | apply IH ].
Qed.

Lemma reachable_has_history (w : session.world) :
  session.reachable w -> exists l, w = session.run l session.initial.
Proof.
  induction 1 as [ | a E w Hw [l ->]].
  - exists []. reflexivity.
  - exists (l ++ [(a, E)])%list. rewrite run_app. reflexivity.
Qed.

Ltac ready_callback :=
  py_unfold; unfold gui_server.sos_probe; repeat py_case;
  cbn [session.out py.trace_of]; py_assoc;
  rewrite ?view_called_app; cbn; rewrite ?orb_false_r; auto.

(** One callback takes the view to ReadyToStart only if it is the settings
    coroutine and its fetch completed. *)
Lemma ready_only_by_completed_fetch (a : session.action) (E : py.env)
    (w : session.world) :
  session.at_or_past_ready (session.exec a E w) = true ->
  session.at_or_past_ready w = true \/
  (a = session.run_settings_task /\ server_facts.settings_delivered E).
Proof.
  unfold session.at_or_past_ready.
  destruct a; unfold session.exec, session.after, session.edit;
    try (cbn [session.out]; intros H; left; exact H).
  - rewrite validateAcq_fct_cases.
    destruct (spec.selector_index _); cbn [session.out py.trace_of];
      rewrite view_called_app; cbn; rewrite orb_false_r; auto.
  - ready_callback.
  - ready_callback.
  - ready_callback.
  - ready_callback.
  - ready_callback.
  - ready_callback.
  - ready_callback.
  - destruct (_ <? _)%nat; [ | auto ].
    ready_callback.
    intros _. right. split; [ reflexivity | ].
    unfold server_facts.settings_delivered. eauto 10.
  - ready_callback.
Qed.

Lemma ready_history (l : list (session.action * py.env)) (w : session.world) :
  session.at_or_past_ready (session.run l w) = true ->
  session.at_or_past_ready w = true \/ server_facts.fetch_completed l.
Proof.
  revert w. induction l as [ | [a E] l IH]; intros w; cbn [session.run].
  - auto.
  - intros H. destruct (IH _ H) as [Hstep | (E' & Hin & Hok)].
    + destruct (ready_only_by_completed_fetch a E w Hstep) as [Hw | [-> Hok]].
      * left. exact Hw.
      * right. exists E. split; [ left; reflexivity | exact Hok ].
    + right. exists E'. split; [ right; exact Hin | exact Hok ].
Qed.

(** C7, as the code has it.  In every state a session reaches, each of the
    IP, port and array-selector inputs is disabled exactly when the
    controller has reached ReadyToStart, that is when the view's
    [ready_to_start] has run; the Confirm button is disabled exactly when
    that holds or the view's [sos] handler has been entered.  And whatever
    history of callbacks led to the state, if ReadyToStart has been
    reached then in that history the settings coroutine ran with a fetch
    that completed. *)
Theorem connection_inputs_disabled_iff_ready (w : session.world) :
  session.reachable w ->
  let g := array.gui (session.self w) in
  (widgets.Text.disabled (gui_server.ip g) = true <->
     session.at_or_past_ready w = true) /\
  (widgets.Text.disabled (gui_server.port g) = true <->
     session.at_or_past_ready w = true) /\
  (widgets.Dropdown.disabled (gui_server.array_nb g) = true <->
     session.at_or_past_ready w = true) /\
  (widgets.Button.disabled (gui_server.button_connect g) = true <->
     session.at_or_past_ready w = true \/ session.sos_entered w = true) /\
  (exists l, w = session.run l session.initial) /\
  (forall l, w = session.run l session.initial ->
     session.at_or_past_ready w = true -> server_facts.fetch_completed l).
Proof.
  intros Hw g.
  destruct (connection_inputs_reachable w Hw)
    as [Hip Hport Hnb Hconnect Hfetched Hspace].
  subst g. rewrite Hip, Hport, Hnb, Hconnect, orb_true_iff.
  repeat split; auto.
  - exact (reachable_has_history w Hw).
  - intros l -> Hready.
    destruct (ready_history l session.initial Hready) as [Hinit | Hdone].
    + discriminate Hinit.
    + exact Hdone.
Qed.

Lemma connection_inputs_disabled_iff_ready_witness :
  let g := array.gui (session.self examples.ready) in
  (widgets.Text.disabled (gui_server.ip g) = true <->
     session.at_or_past_ready examples.ready = true) /\
  (widgets.Text.disabled (gui_server.port g) = true <->
     session.at_or_past_ready examples.ready = true) /\
  (widgets.Dropdown.disabled (gui_server.array_nb g) = true <->
     session.at_or_past_ready examples.ready = true) /\
  (widgets.Button.disabled (gui_server.button_connect g) = true <->
     session.at_or_past_ready examples.ready = true \/
     session.sos_entered examples.ready = true) /\
  (exists l, examples.ready = session.run l session.initial) /\
  (forall l, examples.ready = session.run l session.initial ->
     session.at_or_past_ready examples.ready = true ->
     server_facts.fetch_completed l).
Proof.
  apply (connection_inputs_disabled_iff_ready examples.ready).
  exact (session.reachable_exec session.run_settings_task examples.all_fine _
           (session.reachable_exec session.click_connect examples.all_fine _
              session.reachable_initial)).
Defined.

(** C7 as stated fails on the Confirm button: a click on SOS in the initial
    state disables it, although [ready_to_start] has not run and the three
    other connection inputs are still enabled. *)
Lemma sos_disables_connect_before_ready :
  let w := session.exec session.click_sos examples.all_fine session.initial in
  let g := array.gui (session.self w) in
  session.reachable w /\
  session.at_or_past_ready w = false /\
  widgets.Button.disabled (gui_server.button_connect (array.gui (session.self
    session.initial))) = false /\
  widgets.Button.disabled (gui_server.button_connect g) = true /\
  widgets.Text.disabled (gui_server.ip g) = false /\
  ~ (widgets.Button.disabled (gui_server.button_connect g) = true <->
     session.at_or_past_ready w = true).
Proof.
  cbv zeta.
  split; [ apply session.reachable_exec; apply session.reachable_initial | ].
  split; [ reflexivity | ].
  split; [ reflexivity | ].
  split; [ reflexivity | ].
  split; [ reflexivity | ].
  intros [H _]. discriminate (H eq_refl).
Qed.

(** * Further properties of the server front-end *)

(** ** Acquisition and recording cycles *)

Lemma acquisition_flags_ready (g : gui_server.t) :
  server_facts.acquisition_flags g = server_facts.row_ready ->
  widgets.Button.disabled (gui_server.button_startacq g) = false /\
  widgets.Button.disabled (gui_server.button_stopacq g) = true /\
  widgets.Button.disabled (gui_server.button_startrec g) = false /\
  widgets.Button.disabled (gui_server.button_stoprec g) = true.
Proof.
  unfold server_facts.acquisition_flags, server_facts.row_ready.
  intros [= -> -> -> ->]. repeat split.
Qed.

Lemma start_stop_view_round_trip_aux (g : gui_server.t) :
  server_facts.acquisition_flags g = server_facts.row_ready ->
  gui_server.stop_acq (gui_server.start_acq g) =
    gui_server.update_status "Acquisition stopped." g /\
  gui_server.stop_rec (gui_server.start_rec g) =
    gui_server.update_status "File saved." g.
Proof.
  intros H. apply acquisition_flags_ready in H.
  destruct H as (Ha & Hb & Hc & Hd).
  destruct g as [ip port nb fs bs bc st [da a] [db b] [dc c] [dd d] bsos ss b1 b2 pw l4].
  cbn in Ha, Hb, Hc, Hd. subst a b c d.
  split; reflexivity.
Qed.

(** X1.  On a view whose four acquisition buttons are in the ReadyToStart
    row, [start_acq] followed by [stop_acq] gives the view back with
    nothing but the status text changed, and so does [start_rec] followed
    by [stop_rec]. *)
Theorem start_stop_view_round_trip (g : gui_server.t) :
  server_facts.acquisition_flags g = server_facts.row_ready ->
  gui_server.stop_acq (gui_server.start_acq g) =
    gui_server.update_status "Acquisition stopped." g /\
  gui_server.stop_rec (gui_server.start_rec g) =
    gui_server.update_status "File saved." g.
Proof. exact (start_stop_view_round_trip_aux g). Qed.

Lemma start_stop_view_round_trip_witness :
  let g := array.gui (session.self examples.ready) in
  gui_server.stop_acq (gui_server.start_acq g) =
    gui_server.update_status "Acquisition stopped." g /\
  gui_server.stop_rec (gui_server.start_rec g) =
    gui_server.update_status "File saved." g.
Proof.
  exact (start_stop_view_round_trip (array.gui (session.self examples.ready)) eq_refl).
Defined.

(** X2.  A controller with its client and microphone list in place and its
    buttons in the ReadyToStart row: Start ACQ and then Stop ACQ, with [run]
    and [halt] returning, issue [run] on the microphone list with
    duration 0, queue size 1 and job 'listen', then [halt], and leave the
    controller as it was but for the status text 'Acquisition stopped.'. *)
Theorem acquisition_cycle (E1 E2 : py.env) (b1 b2 : widgets.Button.t) (self : array.t)
    (tr : py.trace) (h : array.MemsArrayWS) (l : list Z) :
  array.mu32 self = Some h ->
  array.mems_list self = Some l ->
  server_facts.acquisition_flags (array.gui self) = server_facts.row_ready ->
  py.run_raises E1 = None ->
  py.halt_raises E2 = None ->
  let o1 := array.startacq_fct E1 b1 self tr in
  array.stopacq_fct E2 b2 (py.state_of o1) (py.trace_of o1) =
    py.Returned tt
      (array.set_gui (gui_server.update_status "Acquisition stopped." (array.gui self))
         self)
      (tr ++ [py.Mu32_run (py.mk_run l 0 None None None None 1 "listen");
              py.ViewCall "start_acq"; py.Mu32_halt; py.ViewCall "stop_acq"])%list.
Proof.
  intros Hmu32 Hmems Hrow Hrun Hhalt o1. subst o1.
  destruct (start_stop_view_round_trip_aux _ Hrow) as [Hacq _].
  assert (H1 : array.startacq_fct E1 b1 self tr =
               py.Returned tt (array.set_gui (gui_server.start_acq (array.gui self)) self)
                 (tr ++ [py.Mu32_run (py.mk_run l 0 None None None None 1 "listen");
                         py.ViewCall "start_acq"])%list)
    by (py_unfold; repeat py_case; py_assoc; reflexivity).
  rewrite H1. cbn [py.state_of py.trace_of].
  py_unfold. array_simpl. rewrite Hmu32, Hhalt. py_assoc. array_simpl. rewrite Hacq. reflexivity.
Qed.

Lemma acquisition_cycle_witness :
  let self := session.self examples.ready in
  let o1 :=
    array.startacq_fct examples.all_fine (gui_server.button_startacq (array.gui self))
      self [] in
  array.stopacq_fct examples.all_fine (gui_server.button_stopacq (array.gui self))
    (py.state_of o1) (py.trace_of o1) =
    py.Returned tt
      (array.set_gui (gui_server.update_status "Acquisition stopped." (array.gui self))
         self)
      [py.Mu32_run (py.mk_run [0; 1; 2; 3; 4; 5; 6; 7] 0 None None None None 1 "listen");
       py.ViewCall "start_acq"; py.Mu32_halt; py.ViewCall "stop_acq"].
Proof.
  exact (acquisition_cycle examples.all_fine examples.all_fine
           (gui_server.button_startacq (array.gui (session.self examples.ready)))
           (gui_server.button_stopacq (array.gui (session.self examples.ready)))
           (session.self examples.ready) []
           (array.mk_mu32 "10.3.141.1" "9002") [0; 1; 2; 3; 4; 5; 6; 7]
           eq_refl eq_refl eq_refl eq_refl eq_refl).
Defined.

(** X3.  The same for a recording: Start Recording and then Stop recording,
    with every client call returning, move the view to Recording first,
    issue [run] with H5 recording on, local, uncompressed, into './', queue
    size 0, then [h5_start], then [h5_stop] and [halt], and leave the
    controller as it was but for the status text 'File saved.'. *)
Theorem recording_cycle (E1 E2 : py.env) (b1 b2 : widgets.Button.t) (self : array.t)
    (tr : py.trace) (h : array.MemsArrayWS) (l : list Z) :
  array.mu32 self = Some h ->
  array.mems_list self = Some l ->
  server_facts.acquisition_flags (array.gui self) = server_facts.row_ready ->
  py.run_raises E1 = None ->
  py.h5_start_raises E1 = None ->
  py.h5_stop_raises E2 = None ->
  py.halt_raises E2 = None ->
  let o1 := array.startrec_fct E1 b1 self tr in
  o1 = py.Returned tt (array.set_gui (gui_server.start_rec (array.gui self)) self)
         (tr ++ [py.ViewCall "start_rec";
                 py.Mu32_run (py.mk_run l 0 (Some true) (Some false) (Some "./")
                                (Some false) 0 "listen");
                 py.Mu32_h5_start])%list /\
  array.stoprec_fct E2 b2 (py.state_of o1) (py.trace_of o1) =
    py.Returned tt
      (array.set_gui (gui_server.update_status "File saved." (array.gui self)) self)
      (tr ++ [py.ViewCall "start_rec";
              py.Mu32_run (py.mk_run l 0 (Some true) (Some false) (Some "./")
                             (Some false) 0 "listen");
              py.Mu32_h5_start; py.Mu32_h5_stop; py.Mu32_halt;
              py.ViewCall "stop_rec"])%list.
Proof.
  intros Hmu32 Hmems Hrow Hrun Hstart Hstop Hhalt o1. subst o1.
  destruct (start_stop_view_round_trip_aux _ Hrow) as [_ Hrec].
  assert (H1 : array.startrec_fct E1 b1 self tr =
               py.Returned tt (array.set_gui (gui_server.start_rec (array.gui self)) self)
                 (tr ++ [py.ViewCall "start_rec";
                         py.Mu32_run (py.mk_run l 0 (Some true) (Some false) (Some "./")
                                        (Some false) 0 "listen");
                         py.Mu32_h5_start])%list)
    by (py_unfold; repeat py_case; py_assoc; reflexivity).
  rewrite H1. split; [ reflexivity | ]. cbn [py.state_of py.trace_of].
  py_unfold. array_simpl. rewrite Hmu32, Hstop. array_simpl. rewrite Hmu32, Hhalt.
  py_assoc. array_simpl. rewrite Hrec. reflexivity.
Qed.

Lemma recording_cycle_witness :
  let self := session.self examples.ready in
  let o1 :=
    array.startrec_fct examples.all_fine (gui_server.button_startrec (array.gui self))
      self [] in
  py.state_of
    (array.stoprec_fct examples.all_fine (gui_server.button_stoprec (array.gui self))
       (py.state_of o1) (py.trace_of o1)) =
  array.set_gui (gui_server.update_status "File saved." (array.gui self)) self.
Proof.
  exact (f_equal py.state_of
           (proj2 (recording_cycle examples.all_fine examples.all_fine
                     (gui_server.button_startrec (array.gui (session.self examples.ready)))
                     (gui_server.button_stoprec (array.gui (session.self examples.ready)))
                     (session.self examples.ready) []
                     (array.mk_mu32 "10.3.141.1" "9002") [0; 1; 2; 3; 4; 5; 6; 7]
                     eq_refl eq_refl eq_refl eq_refl eq_refl eq_refl eq_refl))).
Defined.

(** ** What the callbacks do not handle *)

(** X4.  [stopacq_fct] has no handler.  When [halt] raises, the exception
    leaves the callback and the controller and its view are exactly as
    before, so the view still shows the acquisition as running; the view's
    [stop_acq] is applied only after [halt] has returned. *)
Theorem stopacq_fct_halt_failure (E : py.env) (button : widgets.Button.t)
    (self : array.t) (tr : py.trace) (h : array.MemsArrayWS) :
  array.mu32 self = Some h ->
  match py.halt_raises E with
  | Some e =>
      array.stopacq_fct E button self tr = py.Raised e self (tr ++ [py.Mu32_halt])%list
  | None =>
      array.stopacq_fct E button self tr =
        py.Returned tt (array.set_gui (gui_server.stop_acq (array.gui self)) self)
          (tr ++ [py.Mu32_halt; py.ViewCall "stop_acq"])%list
  end.
Proof.
  intros Hmu32. py_unfold. rewrite Hmu32.
  destruct (py.halt_raises E); py_assoc; reflexivity.
Qed.

Lemma stopacq_fct_halt_failure_witness :
  let acquiring :=
    session.exec session.click_startacq examples.all_fine examples.ready in
  let o :=
    array.stopacq_fct server_facts.unreliable
      (gui_server.button_stopacq (array.gui (session.self acquiring)))
      (session.self acquiring) [] in
  o = py.Raised server_facts.timed_out (session.self acquiring) [py.Mu32_halt] /\
  server_facts.acquisition_flags (array.gui (py.state_of o)) =
    server_facts.row_acquiring.
Proof.
  split; [ | reflexivity ].
  exact (stopacq_fct_halt_failure server_facts.unreliable
           (gui_server.button_stopacq (array.gui (session.self
              (session.exec session.click_startacq examples.all_fine examples.ready))))
           (session.self
              (session.exec session.click_startacq examples.all_fine examples.ready))
           [] (array.mk_mu32 "10.3.141.1" "9002") eq_refl).
Defined.

(** X5.  [stoprec_fct] has no handler either, and it stops in two steps.
    If [h5_stop] raises, [halt] is never called; if [h5_stop] returns and
    [halt] raises, the writing has been stopped but the acquisition has
    not.  In both cases the exception leaves the callback and the
    controller and its view are as before. *)
Theorem stoprec_fct_failure (E : py.env) (button : widgets.Button.t)
    (self : array.t) (tr : py.trace) (h : array.MemsArrayWS) (e : py.exn) :
  array.mu32 self = Some h ->
  (py.h5_stop_raises E = Some e ->
   array.stoprec_fct E button self tr = py.Raised e self (tr ++ [py.Mu32_h5_stop])%list)
  /\
  (py.h5_stop_raises E = None -> py.halt_raises E = Some e ->
   array.stoprec_fct E button self tr =
     py.Raised e self (tr ++ [py.Mu32_h5_stop; py.Mu32_halt])%list).
Proof.
  intros Hmu32. split.
  - intros Hstop. py_unfold. rewrite Hmu32, Hstop. reflexivity.
  - intros Hstop Hhalt. py_unfold. rewrite Hmu32, Hstop. array_simpl.
    rewrite Hmu32, Hhalt. py_assoc. reflexivity.
Qed.

Lemma stoprec_fct_failure_witness :
  let recording :=
    session.exec session.click_startrec examples.all_fine examples.ready in
  array.stoprec_fct server_facts.unreliable
    (gui_server.button_stoprec (array.gui (session.self recording)))
    (session.self recording) [] =
  py.Raised server_facts.timed_out (session.self recording)
    [py.Mu32_h5_stop; py.Mu32_halt].
Proof.
  exact (proj2 (stoprec_fct_failure server_facts.unreliable
                  (gui_server.button_stoprec (array.gui (session.self
                     (session.exec session.click_startrec examples.all_fine
                        examples.ready))))
                  (session.self
                     (session.exec session.click_startrec examples.all_fine
                        examples.ready))
                  [] (array.mk_mu32 "10.3.141.1" "9002") server_facts.timed_out eq_refl)
               eq_refl eq_refl).
Defined.

(** X6.  Start ACQ on a controller that has no client yet, or has a client
    but no microphone list (Confirm ended on a bad selector): the missing
    attribute raises AttributeError inside the [try], which the handler
    turns into the status text 'Aborting: ' followed by the message.  [run]
    is not called and no [disabled] trait changes. *)
Theorem startacq_fct_before_confirm (E : py.env) (button : widgets.Button.t)
    (self : array.t) (tr : py.trace) (attr : string) :
  (array.mu32 self = None /\ attr = "mu32") \/
  (array.mu32 self <> None /\ array.mems_list self = None /\ attr = "mems_list") ->
  let g' :=
    gui_server.update_status
      ("Aborting: 'array' object has no attribute '" ++ attr ++ "'") (array.gui self) in
  array.startacq_fct E button self tr =
    py.Returned tt (array.set_gui g' self) (tr ++ [py.ViewCall "update_status"])%list /\
  gui_server.enablement g' = gui_server.enablement (array.gui self).
Proof.
  intros [[Hmu32 ->] | (Hmu32 & Hmems & ->)] g'; subst g'.
  - py_unfold. rewrite Hmu32. cbn. split; reflexivity.
  - py_unfold. destruct (array.mu32 self); [ | contradiction Hmu32; reflexivity ].
    rewrite Hmems. cbn. split; reflexivity.
Qed.

Lemma startacq_fct_before_confirm_witness :
  let g' :=
    gui_server.update_status "Aborting: 'array' object has no attribute 'mu32'"
      gui_server.init in
  array.startacq_fct examples.all_fine (gui_server.button_startacq gui_server.init)
    array.init [] =
    py.Returned tt (array.set_gui g' array.init) [py.ViewCall "update_status"] /\
  gui_server.enablement g' = gui_server.enablement gui_server.init.
Proof.
  exact (startacq_fct_before_confirm examples.all_fine
           (gui_server.button_startacq gui_server.init) array.init [] "mu32"
           (or_introl (conj eq_refl eq_refl))).
Defined.

(** ** Reading buffers *)

(** X7.  When the queue delivers a frame within the 5 seconds, [read]
    converts it to float32, scales it by the client's sensibility, stores
    the result in [self.m] and returns that same buffer; the view is not
    touched. *)
Theorem read_returns_scaled_frame (E : py.env) (self : array.t) (tr : py.trace)
    (h : array.MemsArrayWS) (raw : py.ndarray) :
  array.mu32 self = Some h ->
  py.signal_q_get_result E = inr raw ->
  let buffer := py.mul_scalar (py.astype_float32 raw) (py.sensibility E) in
  array.read E self tr =
    py.Returned (Some buffer) (array.set_m (Some buffer) self)
      (tr ++ [py.Signal_q_get 5])%list.
Proof.
  intros Hmu32 Hget buffer. py_unfold. rewrite Hmu32, Hget. array_simpl.
  rewrite Hmu32. reflexivity.
Qed.

Lemma read_returns_scaled_frame_witness :
  let buffer :=
    py.mul_scalar (py.astype_float32 (py.frame [[1; 2]; [3; 4]])) (1 # 1000)%Q in
  array.read examples.all_fine (session.self examples.ready) [] =
    py.Returned (Some buffer) (array.set_m (Some buffer) (session.self examples.ready))
      [py.Signal_q_get 5].
Proof.
  exact (read_returns_scaled_frame examples.all_fine (session.self examples.ready) []
           (array.mk_mu32 "10.3.141.1" "9002") (py.frame [[1; 2]; [3; 4]])
           eq_refl eq_refl).
Defined.

(** X8.  [self.m] is the last buffer read: after a [read] that delivered a
    frame, a [read] that times out returns None and leaves in [self.m] the
    buffer of the first. *)
Theorem read_timeout_keeps_last_buffer (E1 E2 : py.env) (self : array.t) (tr : py.trace)
    (h : array.MemsArrayWS) (raw : py.ndarray) (e : py.exn) :
  array.mu32 self = Some h ->
  py.signal_q_get_result E1 = inr raw ->
  py.signal_q_get_result E2 = inl e ->
  py.Empty e = true ->
  let o1 := array.read E1 self tr in
  let o2 := array.read E2 (py.state_of o1) (py.trace_of o1) in
  let buffer := py.mul_scalar (py.astype_float32 raw) (py.sensibility E1) in
  (exists s tr', o2 = py.Returned None s tr') /\
  array.m (py.state_of o2) = Some buffer.
Proof.
  intros Hmu32 Hget1 Hget2 Hempty o1 o2 buffer. subst o2 o1.
  assert (H1 : array.read E1 self tr =
               py.Returned (Some buffer) (array.set_m (Some buffer) self)
                 (tr ++ [py.Signal_q_get 5])%list).
  { py_unfold. rewrite Hmu32, Hget1. array_simpl. rewrite Hmu32. reflexivity. }
  rewrite H1. cbn [py.state_of py.trace_of].
  py_unfold. array_simpl. rewrite Hmu32, Hget2, Hempty.
  split; [ eexists; eexists; reflexivity | reflexivity ].
Qed.

Lemma read_timeout_keeps_last_buffer_witness :
  let o1 := array.read examples.all_fine (session.self examples.ready) [] in
  let o2 := array.read examples.nothing_queued (py.state_of o1) (py.trace_of o1) in
  (exists s tr', o2 = py.Returned None s tr') /\
  array.m (py.state_of o2) =
    Some (py.mul_scalar (py.astype_float32 (py.frame [[1; 2]; [3; 4]])) (1 # 1000)%Q).
Proof.
  exact (read_timeout_keeps_last_buffer examples.all_fine examples.nothing_queued
           (session.self examples.ready) [] (array.mk_mu32 "10.3.141.1" "9002")
           (py.frame [[1; 2]; [3; 4]]) (py.mk_exn "Empty" EmptyString)
           eq_refl eq_refl eq_refl eq_refl).
Defined.



(** ** The settings coroutine *)

(** X10.  When the settings arrive with both keys, the coroutine stores the
    sampling frequency and the frame length, sets [mems_nb] to the length
    of the microphone list and the inter-microphone spacing to 0.06, and
    moves the view to ReadyToStart: the two values are shown as decimal
    text, Confirm is disabled, and the acquisition buttons are in the
    ReadyToStart row. *)
Theorem settings_populate_controller (E : py.env) (self : array.t) (tr : py.trace)
    (h : array.MemsArrayWS) (l : list Z) (settings : list (string * Z)) (f b : Z) :
  array.mu32 self = Some h ->
  array.mems_list self = Some l ->
  py.settings_result E = inr settings ->
  py.dict_lookup settings "sampling_frequency" = Some f ->
  py.dict_lookup settings "frame_length" = Some b ->
  let o := array.validateAcq_fct_settings E self tr in
  let self' := py.state_of o in
  (exists tr', o = py.Returned tt self' tr') /\
  array.fs self' = f /\
  array.blocksize self' = b /\
  array.mems_nb self' = Some (Z.of_nat (length l)) /\
  array.interspace self' = Some (6 # 100)%Q /\
  array.gui self' = gui_server.ready_to_start f b (array.gui self) /\
  widgets.Text.value (gui_server.fs (array.gui self')) = py.str_int f /\
  widgets.Text.value (gui_server.blocksize (array.gui self')) = py.str_int b /\
  gui_server.acquisition_buttons (array.gui self') = [true; false; true; false; true].
Proof.
  intros Hmu32 Hmems Hset Hf Hb o self'. subst self' o.
  py_unfold. rewrite Hmu32, Hset, Hf. array_simpl. rewrite Hb. array_simpl.
  rewrite Hmems. cbn [py.state_of].
  split; [ eexists; reflexivity | ].
  repeat split.
Qed.

Lemma settings_populate_controller_witness :
  let connected :=
    session.self (session.exec session.click_connect examples.all_fine session.initial) in
  let self' :=
    py.state_of (array.validateAcq_fct_settings examples.all_fine connected []) in
  array.fs self' = 50000 /\
  array.blocksize self' = 512 /\
  array.mems_nb self' = Some 8 /\
  widgets.Text.value (gui_server.fs (array.gui self')) = "50000" /\
  widgets.Text.value (gui_server.blocksize (array.gui self')) = "512".
Proof.
  destruct (settings_populate_controller examples.all_fine
              (session.self
                 (session.exec session.click_connect examples.all_fine session.initial))
              [] (array.mk_mu32 "10.3.141.1" "9002") [0; 1; 2; 3; 4; 5; 6; 7]
              [("sampling_frequency", 50000); ("frame_length", 512)] 50000 512
              eq_refl eq_refl eq_refl eq_refl eq_refl)
    as (_ & Hfs & Hbs & Hnb & _ & _ & Htf & Htb & _).
  repeat split; assumption.
Defined.

(** X11.  When the settings do not arrive whole, the view never reaches
    ReadyToStart.  If the fetch fails, or the key 'sampling_frequency' is
    missing, the controller is unchanged.  If only 'frame_length' is
    missing, KeyError is raised after [self.fs] has been overwritten:
    the block size, the other attributes and the view keep their old
    values. *)
Theorem settings_failure_modes (E : py.env) (self : array.t) (tr : py.trace)
    (h : array.MemsArrayWS) :
  array.mu32 self = Some h ->
  let o := array.validateAcq_fct_settings E self tr in
  (forall e, py.settings_result E = inl e ->
     exists tr', o = py.Raised e self tr') /\
  (forall settings, py.settings_result E = inr settings ->
     py.dict_lookup settings "sampling_frequency" = None ->
     exists tr', o = py.Raised (py.KeyError "sampling_frequency") self tr') /\
  (forall settings f, py.settings_result E = inr settings ->
     py.dict_lookup settings "sampling_frequency" = Some f ->
     py.dict_lookup settings "frame_length" = None ->
     exists tr', o = py.Raised (py.KeyError "frame_length") (array.set_fs f self) tr').
Proof.
  intros Hmu32 o. subst o. repeat split.
  - intros e Hset. py_unfold. rewrite Hmu32, Hset. eexists; reflexivity.
  - intros settings Hset Hf. py_unfold. rewrite Hmu32, Hset, Hf. eexists; reflexivity.
  - intros settings f Hset Hf Hb. py_unfold. rewrite Hmu32, Hset, Hf. array_simpl.
    rewrite Hb. eexists; reflexivity.
Qed.

Lemma settings_failure_modes_witness :
  let connected :=
    session.self (session.exec session.click_connect examples.all_fine session.initial) in
  exists tr',
    array.validateAcq_fct_settings server_facts.unreliable connected [] =
      py.Raised (py.KeyError "frame_length") (array.set_fs 50000 connected) tr'.
Proof.
  exact (proj2 (proj2 (settings_failure_modes server_facts.unreliable
                         (session.self
                            (session.exec session.click_connect examples.all_fine
                               session.initial))
                         [] (array.mk_mu32 "10.3.141.1" "9002") eq_refl))
           [("sampling_frequency", 50000)] 50000 eq_refl eq_refl eq_refl).
Defined.

(** ** Invariants of a server session *)

Lemma block_length (k : nat) : length (spec.block k) = 8%nat.
Proof. reflexivity. Qed.

Lemma attributes_initial : server_facts.attributes_invariant session.initial.
Proof.
  constructor; cbn; auto. discriminate.
Qed.

Ltac attr_known :=
  repeat match goal with
    | H : array.mems_list ?s = _ |- context [array.mems_list ?s] => rewrite H
    | H : array.mu32 ?s = _ |- context [array.mu32 ?s] => rewrite H
    | H : array.mems_nb ?s = _ |- context [array.mems_nb ?s] => rewrite H
    end.

Ltac attr_callback :=
  py_unfold; unfold gui_server.sos_probe;
  repeat py_case; constructor; inv_finish; attr_known; auto; try discriminate.

Lemma attributes_exec (a : session.action) (E : py.env) (w : session.world) :
  server_facts.attributes_invariant w ->
  server_facts.attributes_invariant (session.exec a E w).
Proof.
  intros [Hlist Hnb Hclient Hready].
  destruct a; unfold session.exec, session.after, session.edit.
  - (* Confirm *)
    rewrite validateAcq_fct_cases.
    destruct (spec.selector_index _) as [k | ] eqn:Hk; constructor; inv_finish; auto.
    + right. exists k. split; [ exact (selector_index_bound _ _ Hk) | reflexivity ].
    + discriminate.
    + discriminate.
    + discriminate.
  - attr_callback.
  - attr_callback.
  - attr_callback.
  - attr_callback.
  - attr_callback.
  - attr_callback.
  - attr_callback.
  - (* the settings task *)
    destruct (_ <? _)%nat; [ | constructor; assumption ].
    attr_callback.
    right. destruct Hlist as [Hnone | (k & _ & Hsome)]; [ discriminate Hnone | ].
    injection Hsome as ->. reflexivity.
  - attr_callback.
  - constructor; inv_finish; auto.
  - constructor; inv_finish; auto.
  - constructor; inv_finish; auto.
  - constructor; inv_finish; auto.
Qed.

(** X12.  In every state a session reaches: the microphone list is unset
    or one of the four blocks of 8; [mems_nb] is unset or 8; a microphone
    list is never in place without a client; and once the view has
    reached ReadyToStart both are in place, so the acquisition callbacks
    find the attributes they read. *)
Theorem session_attributes (w : session.world) :
  session.reachable w ->
  (array.mems_list (session.self w) = None \/
   exists k, (k < 4)%nat /\ array.mems_list (session.self w) = Some (spec.block k)) /\
  (array.mems_nb (session.self w) = None \/ array.mems_nb (session.self w) = Some 8) /\
  (array.mems_list (session.self w) <> None -> array.mu32 (session.self w) <> None) /\
  (session.at_or_past_ready w = true ->
   array.mems_list (session.self w) <> None /\ array.mu32 (session.self w) <> None).
Proof.
  intros Hw.
  assert (Hinv : server_facts.attributes_invariant w).
  { induction Hw as [ | a E w Hw IH];
      [ exact attributes_initial | exact (attributes_exec a E w IH) ]. }
  destruct Hinv as [Hlist Hnb Hclient Hready].
  repeat split; auto.
Qed.

Lemma session_attributes_witness :
  (array.mems_list (session.self examples.ready) = None \/
   exists k, (k < 4)%nat /\
     array.mems_list (session.self examples.ready) = Some (spec.block k)) /\
  (array.mems_nb (session.self examples.ready) = None \/
   array.mems_nb (session.self examples.ready) = Some 8) /\
  (array.mems_list (session.self examples.ready) <> None ->
   array.mu32 (session.self examples.ready) <> None) /\
  (session.at_or_past_ready examples.ready = true ->
   array.mems_list (session.self examples.ready) <> None /\
   array.mu32 (session.self examples.ready) <> None).
Proof.
  apply (session_attributes examples.ready).
  exact (session.reachable_exec session.run_settings_task examples.all_fine _
           (session.reachable_exec session.click_connect examples.all_fine _
              session.reachable_initial)).
Defined.

Lemma flags_in_rows (a b c d : bool) :
  In [a; b; c; d] server_facts.rows ->
  (a = true /\ b = true /\ c = true /\ d = true) \/
  (a = false /\ b = true /\ c = false /\ d = true) \/
  (a = true /\ b = false /\ c = true /\ d = true) \/
  (a = true /\ b = true /\ c = true /\ d = false).
Proof.
  unfold server_facts.rows, server_facts.row_idle, server_facts.row_ready,
    server_facts.row_acquiring, server_facts.row_recording.
  intros [H | [H | [H | [H | []]]]]; injection H as <- <- <- <-; tauto.
Qed.

Ltac rows_finish :=
  unfold server_facts.acquisition_flags, server_facts.rows, server_facts.row_idle,
    server_facts.row_ready, server_facts.row_acquiring, server_facts.row_recording;
  cbn [session.self session.out py.state_of py.trace_of];
  array_simpl; cbn;
  repeat match goal with H : widgets.Button.disabled _ = _ |- _ => rewrite H end;
  auto 10.

Ltac rows_callback H :=
  destruct H as [H | [H | [H | H]]];
  destruct H as (? & ? & ? & ?);
  rows_finish.

Lemma rows_exec (a : session.action) (E : py.env) (w : session.world) :
  In (server_facts.acquisition_flags (array.gui (session.self w))) server_facts.rows ->
  In (server_facts.acquisition_flags (array.gui (session.self (session.exec a E w))))
     server_facts.rows.
Proof.
  intros H. apply flags_in_rows in H.
  destruct a; unfold session.exec, session.after, session.edit.
  - rewrite validateAcq_fct_cases. destruct (spec.selector_index _); rows_callback H.
  - py_unfold; repeat py_case; rows_callback H.
  - py_unfold; repeat py_case; rows_callback H.
  - py_unfold; repeat py_case; rows_callback H.
  - py_unfold; repeat py_case; rows_callback H.
  - py_unfold; unfold gui_server.sos_probe; repeat py_case; rows_callback H.
  - py_unfold; repeat py_case; rows_callback H.
  - py_unfold; repeat py_case; rows_callback H.
  - destruct (_ <? _)%nat; [ py_unfold; repeat py_case | ]; rows_callback H.
  - py_unfold; repeat py_case; rows_callback H.
  - rows_callback H.
  - rows_callback H.
  - rows_callback H.
  - rows_callback H.
Qed.

(** X13.  In every state a session reaches, whatever failed on the way, the
    [disabled] flags of Start ACQ, Stop ACQ, Start Recording and Stop
    recording form one of four rows: all off; the two starts on; only
    Stop ACQ on; only Stop recording on.  So the two stop buttons are never
    enabled together, and a start button is never enabled together with a
    stop button. *)
Theorem acquisition_buttons_rows (w : session.world) :
  session.reachable w ->
  In (server_facts.acquisition_flags (array.gui (session.self w)))
     [[true; true; true; true]; [false; true; false; true];
      [true; false; true; true]; [true; true; true; false]].
Proof.
  induction 1 as [ | a E w Hw IH].
  - left. reflexivity.
  - exact (rows_exec a E w IH).
Qed.

Lemma acquisition_buttons_rows_witness :
  In (server_facts.acquisition_flags (array.gui (session.self
        (session.exec session.click_startrec examples.run_fails examples.ready))))
     [[true; true; true; true]; [false; true; false; true];
      [true; false; true; true]; [true; true; true; false]].
Proof.
  apply (acquisition_buttons_rows
           (session.exec session.click_startrec examples.run_fails examples.ready)).
  exact (session.reachable_exec session.click_startrec examples.run_fails _
           (session.reachable_exec session.run_settings_task examples.all_fine _
              (session.reachable_exec session.click_connect examples.all_fine _
                 session.reachable_initial))).
Defined.

(** ** The SOS mode when the host does not answer *)

(** X14.  The view's [sos] makes its display changes before it opens the
    SSH session, and it has no handler.  If [connect] raises, or if the
    status command raises, the exception leaves [sos] with the display
    changes made: Confirm, Start ACQ, Start Recording and both server
    buttons are disabled, the admin row is visible, and the server status
    text is not updated.  The session is opened as root with the password
    written in the source, whatever the password field holds, and after a
    failed command it is not closed. *)
Theorem sos_failure_leaves_admin_buttons_disabled (E : py.env)
    (button : widgets.Button.t) (g : gui_server.t) (tr : py.trace) :
  let o := gui_server.sos E button g tr in
  let connect :=
    py.SSH_connect (widgets.Text.value (gui_server.ip g)) "root" "toto@12!" 5 in
  let probe := py.SSH_exec_command "systemctl is-active megamicros_server.service" in
  (forall e, py.connect_raises E = Some e ->
     o = py.Raised e (gui_server.sos_display g)
           (tr ++ [py.SSH_set_missing_host_key_policy "AutoAddPolicy"; connect])%list) /\
  (forall e, py.connect_raises E = None -> py.exec_command_result E = inl e ->
     o = py.Raised e (gui_server.sos_display g)
           (tr ++ [py.SSH_set_missing_host_key_policy "AutoAddPolicy"; connect; probe])
           %list) /\
  widgets.Button.disabled (gui_server.button_start_srv (gui_server.sos_display g)) = true /\
  widgets.Button.disabled (gui_server.button_stop_srv (gui_server.sos_display g)) = true /\
  widgets.Button.disabled (gui_server.button_connect (gui_server.sos_display g)) = true /\
  widgets.Button.disabled (gui_server.button_startacq (gui_server.sos_display g)) = true /\
  widgets.Button.disabled (gui_server.button_startrec (gui_server.sos_display g)) = true /\
  gui_server.ligne4_visibility (gui_server.sos_display g) = "visible" /\
  gui_server.status_sos (gui_server.sos_display g) = gui_server.status_sos g.
Proof.
  intros o connect probe. subst o connect probe.
  split; [ | split; [ | repeat split ] ].
  - intros e Hconnect. py_unfold. rewrite Hconnect. py_assoc. reflexivity.
  - intros e Hconnect Hexec. py_unfold. rewrite Hconnect, Hexec. py_assoc. reflexivity.
Qed.

Lemma sos_failure_leaves_admin_buttons_disabled_witness :
  gui_server.sos server_facts.unreliable (gui_server.button_sos gui_server.init)
    gui_server.init [] =
  py.Raised server_facts.timed_out (gui_server.sos_display gui_server.init)
    [py.SSH_set_missing_host_key_policy "AutoAddPolicy";
     py.SSH_connect "10.3.141.1" "root" "toto@12!" 5].
Proof.
  exact (proj1 (sos_failure_leaves_admin_buttons_disabled server_facts.unreliable
                  (gui_server.button_sos gui_server.init) gui_server.init [])
           server_facts.timed_out eq_refl).
Defined.

(** X15.  [sos_fct] sets the two server buttons before it sends the
    command and never looks at what the command gave: with the session
    open, the controller and its view end the same whether the command
    returned or raised.  When the command raises, the session is not
    closed; when [connect] raises, nothing but the trace has changed. *)
Theorem sos_fct_ignores_command_result (E E' : py.env) (button : widgets.Button.t)
    (self : array.t) (tr : py.trace) :
  py.connect_raises E = None ->
  py.connect_raises E' = None ->
  py.state_of (array.sos_fct E button self tr) =
    py.state_of (array.sos_fct E' button self tr) /\
  (forall e, py.exec_command_result E = inl e ->
     widgets.Password.value (gui_server.passwd (array.gui self)) <> EmptyString ->
     exists evs,
       array.sos_fct E button self tr =
         py.Raised e (py.state_of (array.sos_fct E' button self tr)) (tr ++ evs)%list /\
       ~ In py.SSH_close evs).
Proof.
  intros Hconnect Hconnect'. split.
  - py_unfold. rewrite Hconnect, Hconnect'.
    destruct (String.eqb _ EmptyString); [ reflexivity | ].
    destruct (String.eqb (widgets.Button.description button) "ADMIN: Stop server");
      [ | destruct (String.eqb (widgets.Button.description button)
                      "ADMIN: Start server") ];
      destruct (py.exec_command_result E), (py.exec_command_result E'); reflexivity.
  - intros e Hexec Hpw. apply String.eqb_neq in Hpw.
    py_unfold. rewrite Hconnect, Hconnect', Hexec, Hpw.
    destruct (String.eqb (widgets.Button.description button) "ADMIN: Stop server");
      [ | destruct (String.eqb (widgets.Button.description button)
                      "ADMIN: Start server") ];
      destruct (py.exec_command_result E'); cbn [py.state_of]; py_assoc;
      (eexists; split; [ reflexivity | ]);
      cbn; intros H; repeat (destruct H as [H | H]; [ discriminate H | ]); exact H.
Qed.

Lemma sos_fct_ignores_command_result_witness :
  let self := examples.ready_with_password in
  let stop := gui_server.button_stop_srv (array.gui self) in
  py.state_of (array.sos_fct server_facts.exec_fails stop self []) =
    py.state_of (array.sos_fct examples.all_fine stop self []) /\
  widgets.Button.disabled
    (gui_server.button_stop_srv
       (array.gui (py.state_of (array.sos_fct server_facts.exec_fails stop self []))))
    = true.
Proof.
  split; [ | reflexivity ].
  exact (proj1 (sos_fct_ignores_command_result server_facts.exec_fails examples.all_fine
                  (gui_server.button_stop_srv (array.gui examples.ready_with_password))
                  examples.ready_with_password [] eq_refl eq_refl)).
Defined.

(** X16.  [sos_fct] when the SSH connection cannot be opened: the exception
    leaves the callback before any command is chosen, so no widget and no
    attribute has changed and nothing was sent. *)
Theorem sos_fct_connect_failure (E : py.env) (button : widgets.Button.t)
    (self : array.t) (tr : py.trace) (e : py.exn) :
  widgets.Password.value (gui_server.passwd (array.gui self)) <> EmptyString ->
  py.connect_raises E = Some e ->
  array.sos_fct E button self tr =
    py.Raised e self
      (tr ++ [py.SSH_set_missing_host_key_policy "AutoAddPolicy";
              py.SSH_connect (widgets.Text.value (gui_server.ip (array.gui self))) "root"
                (widgets.Password.value (gui_server.passwd (array.gui self))) 5])%list.
Proof.
  intros Hpw Hconnect. apply String.eqb_neq in Hpw.
  py_unfold. rewrite Hpw, Hconnect. py_assoc. reflexivity.
Qed.

Lemma sos_fct_connect_failure_witness :
  array.sos_fct server_facts.unreliable
    (gui_server.button_start_srv (array.gui examples.ready_with_password))
    examples.ready_with_password [] =
  py.Raised server_facts.timed_out examples.ready_with_password
    [py.SSH_set_missing_host_key_policy "AutoAddPolicy";
     py.SSH_connect "10.3.141.1" "root" "secret" 5].
Proof.
  refine (sos_fct_connect_failure server_facts.unreliable
            (gui_server.button_start_srv (array.gui examples.ready_with_password))
            examples.ready_with_password [] server_facts.timed_out _ eq_refl).
  discriminate.
Defined.

(** ** SOS is a one-way door *)

Lemma tasks_created_app (tr tr' : py.trace) :
  session.tasks_created (tr ++ tr')%list =
  (session.tasks_created tr + session.tasks_created tr')%nat.
Proof.
  unfold session.tasks_created. rewrite filter_app, length_app. reflexivity.
Qed.

Lemma flags_idle (g : gui_server.t) :
  server_facts.acquisition_flags g = server_facts.row_idle ->
  widgets.Button.disabled (gui_server.button_startacq g) = true /\
  widgets.Button.disabled (gui_server.button_stopacq g) = true /\
  widgets.Button.disabled (gui_server.button_startrec g) = true /\
  widgets.Button.disabled (gui_server.button_stoprec g) = true.
Proof.
  unfold server_facts.acquisition_flags, server_facts.row_idle.
  intros [= -> -> -> ->]. repeat split.
Qed.

Ltac off_finish :=
  constructor;
  unfold server_facts.acquisition_flags, server_facts.row_idle;
  cbn [session.self session.out session.tasks_run py.state_of py.trace_of];
  py_assoc; array_simpl;
  rewrite ?tasks_created_app;
  cbn;
  repeat match goal with H : widgets.Button.disabled _ = _ |- _ => rewrite H end;
  rewrite ?select_keeps_disabled;
  auto; try lia.

Lemma acquisition_off_exec (a : session.action) (E : py.env) (w : session.world) :
  server_facts.acquisition_off w ->
  server_facts.clickable a w = true ->
  server_facts.acquisition_off (session.exec a E w).
Proof.
  intros [Hflags Hconnect Htasks] Hclick.
  apply flags_idle in Hflags. destruct Hflags as (Ha & Hb & Hc & Hd).
  destruct a; cbn [server_facts.clickable] in Hclick;
    rewrite ?Ha, ?Hb, ?Hc, ?Hd, ?Hconnect in Hclick; try discriminate Hclick;
    unfold session.exec, session.after, session.edit.
  - (* SOS *)
    py_unfold; unfold gui_server.sos_probe; repeat py_case; off_finish.
  - (* ADMIN: Start server *) py_unfold; repeat py_case; off_finish.
  - (* ADMIN: Stop server *) py_unfold; repeat py_case; off_finish.
  - (* the settings task: none is waiting *)
    apply Nat.ltb_ge in Htasks. rewrite Htasks. apply Nat.ltb_ge in Htasks.
    constructor; unfold server_facts.acquisition_flags; rewrite ?Ha, ?Hb, ?Hc, ?Hd; auto.
  - (* read *) py_unfold; repeat py_case; off_finish.
  - off_finish.
  - off_finish.
  - off_finish.
  - off_finish.
Qed.

Lemma sos_switches_acquisition_off (E : py.env) (w : session.world) :
  In (server_facts.acquisition_flags (array.gui (session.self w)))
     [server_facts.row_idle; server_facts.row_ready] ->
  (session.tasks_created (session.out w) <= session.tasks_run w)%nat ->
  server_facts.acquisition_off (session.exec session.click_sos E w).
Proof.
  intros Hrow Htasks.
  assert (Hstops :
    widgets.Button.disabled (gui_server.button_stopacq (array.gui (session.self w))) = true
    /\ widgets.Button.disabled (gui_server.button_stoprec (array.gui (session.self w)))
       = true).
  { unfold server_facts.acquisition_flags, server_facts.row_idle, server_facts.row_ready
      in Hrow.
    destruct Hrow as [H | [H | []]]; injection H as _ <- _ <-; split; reflexivity. }
  destruct Hstops as [Hb Hd].
  unfold session.exec, session.after.
  py_unfold; unfold gui_server.sos_probe; repeat py_case; off_finish.
Qed.

(** X17.  SOS pressed while nothing is being acquired or recorded and no
    settings fetch is pending: from then on, whatever the user clicks or
    edits on the page and whatever the outside world answers, Start ACQ,
    Stop ACQ, Start Recording, Stop recording and Confirm all stay
    disabled.  No callback of the view or of the controller leads back. *)
Theorem sos_is_a_one_way_door (E : py.env) (w0 w : session.world) :
  In (server_facts.acquisition_flags (array.gui (session.self w0)))
     [server_facts.row_idle; server_facts.row_ready] ->
  (session.tasks_created (session.out w0) <= session.tasks_run w0)%nat ->
  server_facts.reachable_by_clicks (session.exec session.click_sos E w0) w ->
  gui_server.acquisition_buttons (array.gui (session.self w)) =
    [true; true; true; true; true].
Proof.
  intros Hrow Htasks Hreach.
  assert (Hoff : server_facts.acquisition_off w).
  { induction Hreach as [ | a E' w Hreach IH Hclick].
    - exact (sos_switches_acquisition_off E w0 Hrow Htasks).
    - exact (acquisition_off_exec a E' w IH Hclick). }
  destruct Hoff as [Hflags Hconnect _].
  apply flags_idle in Hflags. destruct Hflags as (Ha & Hb & Hc & Hd).
  unfold gui_server.acquisition_buttons.
  rewrite Ha, Hb, Hc, Hd, Hconnect. reflexivity.
Qed.

Lemma sos_is_a_one_way_door_witness :
  let after_sos := session.exec session.click_sos examples.all_fine examples.ready in
  let later := session.exec session.click_stop_srv examples.all_fine after_sos in
  gui_server.acquisition_buttons (array.gui (session.self examples.ready)) =
    [true; false; true; false; true] /\
  gui_server.acquisition_buttons (array.gui (session.self later)) =
    [true; true; true; true; true].
Proof.
  split; [ reflexivity | ].
  refine (sos_is_a_one_way_door examples.all_fine examples.ready _ _ _ _).
  - right. left. reflexivity.
  - cbn. lia.
  - apply server_facts.clicks_step; [ apply server_facts.clicks_none | reflexivity ].
Defined.

(** * Properties of the playback front-end *)

Ltac h5_unfold :=
  cbv beta iota delta
    [h5.bind h5.get h5.modify h5.emit h5.ret h5.builtin h5.external h5.external_result
     h5.getattr array_play.call_gui array_play.self_mu32 array_play.loadFile_fct
     array_play.play_fct array_play.stopplay_fct].

Ltac play_simpl :=
  cbn [array_play.fs array_play.blocksize array_play.gui array_play.filename
       array_play.mu32 array_play.file_duration array_play.interspace
       array_play.mems_nb array_play.set_fs array_play.set_blocksize
       array_play.set_gui array_play.set_filename array_play.set_mu32
       array_play.set_file_duration array_play.set_interspace
       array_play.set_mems_nb].

Ltac h5_case :=
  play_simpl;
  match goal with
  | H : ?x = _ |- context [match ?x with _ => _ end] => rewrite H
  | |- context [match ?x with _ => _ end] =>
      lazymatch x with
      | context [match _ with _ => _ end] => fail
      | _ => destruct x eqn:?
      end
  end.

(** ** Loading a file *)

(** X18.  When the selected file opens, [loadFile_fct] records the
    selection, binds the client, copies its sampling frequency and
    duration, and moves the view to Loaded: the frequency is shown as
    text, the status reads 'File duration = <duration>s.', Play is enabled
    and Stop disabled. *)
Theorem loadFile_fct_loads (E : h5.env) (selected : option string)
    (self : array_play.t) (tr : h5.trace) (obj : h5.MemsArrayH5.t) :
  h5.open_h5 E selected = inr obj ->
  let o := array_play.loadFile_fct E selected self tr in
  let self' := h5.state_of o in
  o = h5.Returned tt self'
        (tr ++ [h5.MemsArrayH5_new selected; h5.ViewCall "update_data_info"])%list /\
  array_play.filename self' = Some selected /\
  array_play.mu32 self' = Some obj /\
  array_play.fs self' = h5.MemsArrayH5.sampling_frequency obj /\
  array_play.file_duration self' = Some (h5.MemsArrayH5.file_duration obj) /\
  array_play.blocksize self' = array_play.blocksize self /\
  widgets.Text.value (gui_play.fs (array_play.gui self')) =
    h5.str (h5.MemsArrayH5.sampling_frequency obj) /\
  widgets.HTML.value (gui_play.status (array_play.gui self')) =
    "File duration = " ++ h5.str (h5.MemsArrayH5.file_duration obj) ++ "s." /\
  widgets.Button.disabled (gui_play.button_startplay (array_play.gui self')) = false /\
  widgets.Button.disabled (gui_play.button_stopplay (array_play.gui self')) = true.
Proof.
  intros Hopen o self'. subst self' o.
  h5_unfold. rewrite Hopen. play_simpl. cbn [h5.state_of].
  repeat rewrite <- app_assoc. repeat split.
Qed.

Lemma loadFile_fct_loads_witness :
  let self' := play_session.self play_examples.loaded in
  array_play.filename self' = Some (Some "take1.h5") /\
  array_play.fs self' = h5.int_ 50000 /\
  widgets.Text.value (gui_play.fs (array_play.gui self')) = "50000" /\
  widgets.HTML.value (gui_play.status (array_play.gui self')) =
    "File duration = 12.5s." /\
  widgets.Button.disabled (gui_play.button_startplay (array_play.gui self')) = false.
Proof.
  destruct (loadFile_fct_loads play_examples.disk (Some "take1.h5")
              (play_session.self
                 (play_session.edit
                    (gui_play.upd_file_selected (fun _ => Some "take1.h5"))
                    play_session.initial))
              [] play_examples.recording eq_refl)
    as (_ & Hname & _ & Hfs & _ & _ & Htext & Hstatus & Hplay & _).
  repeat split; assumption.
Defined.

(** X19.  [loadFile_fct] records the selection before it opens the file
    and has no handler.  When the file does not open, the exception leaves
    the callback with [self.filename] already naming the new selection,
    while the client, the sampling frequency, the duration and the view
    are still those of the file loaded before. *)
Theorem loadFile_fct_failure_keeps_previous_file (E : h5.env) (selected : option string)
    (self : array_play.t) (tr : h5.trace) (e : py.exn) :
  h5.open_h5 E selected = inl e ->
  let o := array_play.loadFile_fct E selected self tr in
  o = h5.Raised e (array_play.set_filename (Some selected) self)
        (tr ++ [h5.MemsArrayH5_new selected])%list /\
  array_play.filename (h5.state_of o) = Some selected /\
  array_play.mu32 (h5.state_of o) = array_play.mu32 self /\
  array_play.fs (h5.state_of o) = array_play.fs self /\
  array_play.file_duration (h5.state_of o) = array_play.file_duration self /\
  array_play.gui (h5.state_of o) = array_play.gui self.
Proof.
  intros Hopen o. subst o. h5_unfold. rewrite Hopen. repeat split.
Qed.

Lemma loadFile_fct_failure_keeps_previous_file_witness :
  let self := play_session.self play_examples.loaded in
  let o := array_play.loadFile_fct play_examples.disk (Some "take2.h5") self [] in
  array_play.filename (h5.state_of o) = Some (Some "take2.h5") /\
  array_play.mu32 (h5.state_of o) = Some play_examples.recording /\
  array_play.gui (h5.state_of o) = array_play.gui self.
Proof.
  destruct (loadFile_fct_failure_keeps_previous_file play_examples.disk
              (Some "take2.h5") (play_session.self play_examples.loaded) []
              (py.mk_exn "FileNotFoundError" "no such file") eq_refl)
    as (_ & Hname & Hmu32 & _ & _ & Hgui).
  repeat split; assumption.
Defined.

(** ** Playing *)

(** X20.  [play_fct] converts the block size text with [int] before
    anything else.  When [int] refuses the text, the exception leaves the
    callback at once: no attribute is changed, [run] is not called and the
    view stays as it was. *)
Theorem play_fct_rejects_bad_blocksize (E : h5.env) (button : widgets.Button.t)
    (self : array_play.t) (tr : h5.trace) (e : py.exn) :
  h5.int E (widgets.Text.value (gui_play.blocksize (array_play.gui self))) = inl e ->
  array_play.play_fct E button self tr = h5.Raised e self tr.
Proof.
  intros Hint. h5_unfold. rewrite Hint. reflexivity.
Qed.

Lemma play_fct_rejects_bad_blocksize_witness :
  let w :=
    play_session.exec (play_session.edit_blocksize "2k") play_examples.disk
      play_examples.loaded in
  array_play.play_fct play_examples.disk
    (gui_play.button_startplay (array_play.gui (play_session.self w)))
    (play_session.self w) (play_session.out w) =
  h5.Raised (py.mk_exn "ValueError" "invalid literal for int() with base 10: '2k'")
    (play_session.self w) (play_session.out w).
Proof.
  exact (play_fct_rejects_bad_blocksize play_examples.disk
           (gui_play.button_startplay (array_play.gui (play_session.self
              (play_session.exec (play_session.edit_blocksize "2k") play_examples.disk
                 play_examples.loaded))))
           (play_session.self
              (play_session.exec (play_session.edit_blocksize "2k") play_examples.disk
                 play_examples.loaded))
           (play_session.out
              (play_session.exec (play_session.edit_blocksize "2k") play_examples.disk
                 play_examples.loaded))
           (py.mk_exn "ValueError" "invalid literal for int() with base 10: '2k'")
           eq_refl).
Defined.

(** X21.  With a file loaded and a block size [n] read from the text,
    [play_fct] stores [n] and the number of microphones of the file, then
    calls [run] on the available microphones with duration 0, frame
    length [n], the counter skipped, queue size 0 and datatype 'int32'.
    The view moves to Reading only if [run] returns; if it raises, the
    two attributes have been updated and the view has not. *)
Theorem play_fct_runs_file (E : h5.env) (button : widgets.Button.t)
    (self : array_play.t) (tr : h5.trace) (obj : h5.MemsArrayH5.t) (n : Z) :
  array_play.mu32 self = Some obj ->
  h5.int E (widgets.Text.value (gui_play.blocksize (array_play.gui self))) = inr n ->
  let updated :=
    array_play.set_mems_nb (Some (Z.of_nat (length (h5.MemsArrayH5.mems obj))))
      (array_play.set_blocksize n self) in
  let call :=
    h5.Mu32_run (h5.mk_run (h5.MemsArrayH5.available_mems obj) 0 n true 0 "int32") in
  match h5.run_raises E with
  | None =>
      array_play.play_fct E button self tr =
        h5.Returned tt
          (array_play.set_gui (gui_play.start_read (array_play.gui self)) updated)
          (tr ++ [call; h5.ViewCall "start_read"])%list
  | Some e =>
      array_play.play_fct E button self tr = h5.Raised e updated (tr ++ [call])%list
  end.
Proof.
  intros Hmu32 Hint updated call. subst updated call.
  h5_unfold. rewrite Hint. do 3 (play_simpl; rewrite Hmu32). play_simpl.
  destruct (h5.run_raises E); repeat rewrite <- app_assoc; reflexivity.
Qed.

Lemma play_fct_runs_file_witness :
  let self := play_session.self play_examples.loaded in
  array_play.play_fct play_examples.disk
    (gui_play.button_startplay (array_play.gui self)) self [] =
  h5.Returned tt
    (array_play.set_gui (gui_play.start_read (array_play.gui self))
       (array_play.set_mems_nb (Some 4) (array_play.set_blocksize 2048 self)))
    [h5.Mu32_run (h5.mk_run [0; 1; 2; 3] 0 2048 true 0 "int32");
     h5.ViewCall "start_read"].
Proof.
  exact (play_fct_runs_file play_examples.disk
           (gui_play.button_startplay (array_play.gui (play_session.self
              play_examples.loaded)))
           (play_session.self play_examples.loaded) [] play_examples.recording 2048
           eq_refl eq_refl).
Defined.

(** X22.  Play pressed before any file was loaded: the block size text is
    converted and stored, then the missing client raises AttributeError.
    [self.blocksize] has changed although nothing is played, and the view
    is untouched. *)
Theorem play_fct_before_load (E : h5.env) (button : widgets.Button.t)
    (self : array_play.t) (tr : h5.trace) (n : Z) :
  array_play.mu32 self = None ->
  h5.int E (widgets.Text.value (gui_play.blocksize (array_play.gui self))) = inr n ->
  array_play.play_fct E button self tr =
    h5.Raised (py.AttributeError "array" "mu32") (array_play.set_blocksize n self) tr.
Proof.
  intros Hmu32 Hint. h5_unfold. rewrite Hint. play_simpl. rewrite Hmu32. reflexivity.
Qed.

Lemma play_fct_before_load_witness :
  array_play.play_fct play_examples.disk (gui_play.button_startplay gui_play.init)
    array_play.init [] =
  h5.Raised (py.AttributeError "array" "mu32")
    (array_play.set_blocksize 2048 array_play.init) [].
Proof.
  exact (play_fct_before_load play_examples.disk
           (gui_play.button_startplay gui_play.init) array_play.init [] 2048
           eq_refl eq_refl).
Defined.

(** X23.  A loaded controller whose view has Play enabled, Stop disabled
    and the block size editable: Play and then Stop, with [run] and [stop]
    returning, call [run] and then the client's [stop], and give the view
    back with nothing but the status text changed to 'Reading stopped';
    the controller keeps the block size and microphone count it read. *)
Theorem play_stop_cycle (E1 E2 : h5.env) (b1 b2 : widgets.Button.t)
    (self : array_play.t) (tr : h5.trace) (obj : h5.MemsArrayH5.t) (n : Z) :
  array_play.mu32 self = Some obj ->
  h5.int E1 (widgets.Text.value (gui_play.blocksize (array_play.gui self))) = inr n ->
  widgets.Text.disabled (gui_play.blocksize (array_play.gui self)) = false ->
  widgets.Button.disabled (gui_play.button_startplay (array_play.gui self)) = false ->
  widgets.Button.disabled (gui_play.button_stopplay (array_play.gui self)) = true ->
  h5.run_raises E1 = None ->
  h5.stop_raises E2 = None ->
  let o1 := array_play.play_fct E1 b1 self tr in
  array_play.stopplay_fct E2 b2 (h5.state_of o1) (h5.trace_of o1) =
    h5.Returned tt
      (array_play.set_gui (gui_play.update_status "Reading stopped" (array_play.gui self))
         (array_play.set_mems_nb (Some (Z.of_nat (length (h5.MemsArrayH5.mems obj))))
            (array_play.set_blocksize n self)))
      (tr ++ [h5.Mu32_run
                (h5.mk_run (h5.MemsArrayH5.available_mems obj) 0 n true 0 "int32");
              h5.ViewCall "start_read"; h5.Mu32_stop; h5.ViewCall "stop_read"])%list.
Proof.
  intros Hmu32 Hint Hbs Hplay Hstop Hrun Hstopped o1. subst o1.
  assert (Hview : gui_play.stop_read (gui_play.start_read (array_play.gui self)) =
                  gui_play.update_status "Reading stopped" (array_play.gui self)).
  { destruct (array_play.gui self) as [fp sel fs [bv bd bc bdis] [pd p] [sd sdis] st].
    cbn in Hbs, Hplay, Hstop. subst bdis p sdis. reflexivity. }
  assert (H1 : array_play.play_fct E1 b1 self tr =
               h5.Returned tt
                 (array_play.set_gui (gui_play.start_read (array_play.gui self))
                    (array_play.set_mems_nb
                       (Some (Z.of_nat (length (h5.MemsArrayH5.mems obj))))
                       (array_play.set_blocksize n self)))
                 (tr ++ [h5.Mu32_run
                           (h5.mk_run (h5.MemsArrayH5.available_mems obj) 0 n true 0
                              "int32");
                         h5.ViewCall "start_read"])%list).
  { h5_unfold. rewrite Hint. do 3 (play_simpl; rewrite Hmu32). play_simpl.
    rewrite Hrun. repeat rewrite <- app_assoc. reflexivity. }
  rewrite H1. cbn [h5.state_of h5.trace_of].
  h5_unfold. play_simpl. rewrite Hmu32, Hstopped. play_simpl.
  repeat rewrite <- app_assoc. rewrite Hview. reflexivity.
Qed.

Lemma play_stop_cycle_witness :
  let self := play_session.self play_examples.loaded in
  let o1 :=
    array_play.play_fct play_examples.disk
      (gui_play.button_startplay (array_play.gui self)) self [] in
  array_play.stopplay_fct play_examples.disk
    (gui_play.button_stopplay (array_play.gui self)) (h5.state_of o1) (h5.trace_of o1) =
  h5.Returned tt
    (array_play.set_gui (gui_play.update_status "Reading stopped" (array_play.gui self))
       (array_play.set_mems_nb (Some 4) (array_play.set_blocksize 2048 self)))
    [h5.Mu32_run (h5.mk_run [0; 1; 2; 3] 0 2048 true 0 "int32");
     h5.ViewCall "start_read"; h5.Mu32_stop; h5.ViewCall "stop_read"].
Proof.
  exact (play_stop_cycle play_examples.disk play_examples.disk
           (gui_play.button_startplay (array_play.gui (play_session.self
              play_examples.loaded)))
           (gui_play.button_stopplay (array_play.gui (play_session.self
              play_examples.loaded)))
           (play_session.self play_examples.loaded) [] play_examples.recording 2048
           eq_refl eq_refl eq_refl eq_refl eq_refl eq_refl eq_refl).
Defined.

(** ** Invariants of a playback session *)

Lemma playback_initial : play_session.playback_invariant play_session.initial.
Proof.
  constructor; cbn; auto.
  - intros [H | H]; discriminate H.
  - intros obj H. discriminate H.
Qed.

Ltac play_inv_finish :=
  constructor;
  cbn [play_session.self play_session.out h5.state_of h5.trace_of];
  play_simpl; cbn;
  repeat match goal with
    | H : array_play.mu32 ?s = _ |- context [array_play.mu32 ?s] => rewrite H
    end;
  auto;
  try solve [ intros _; discriminate
            | intros ? [= <-]; repeat split
            | intros ? H; discriminate H
            | intros [? | ?]; discriminate ].

Lemma playback_exec (a : play_session.action) (E : h5.env) (w : play_session.world) :
  play_session.playback_invariant w ->
  play_session.playback_invariant (play_session.exec a E w).
Proof.
  intros [Hlock Hboth Hloaded Hdisplay].
  destruct a; unfold play_session.exec, play_session.after, play_session.edit;
    cbn [play_session.self play_session.out].
  - (* a file is selected *)
    h5_unfold; repeat h5_case; play_inv_finish.
  - (* Play *)
    h5_unfold; repeat h5_case; play_inv_finish.
  - (* Stop *)
    h5_unfold; repeat h5_case; play_inv_finish.
  - play_inv_finish.
Qed.

(** X24.  In every state a playback session reaches, whatever failed on
    the way: the block size input is locked exactly while Stop is enabled;
    Play and Stop are never enabled together; one of them is enabled only
    if a file has been loaded; and once a file is loaded, the controller's
    sampling frequency and duration and the frequency shown in the view
    are those of the loaded file, also after a later selection failed to
    open. *)
Theorem playback_session_invariant (w : play_session.world) :
  play_session.reachable w ->
  let self := play_session.self w in
  let g := array_play.gui self in
  widgets.Text.disabled (gui_play.blocksize g) =
    negb (widgets.Button.disabled (gui_play.button_stopplay g)) /\
  (widgets.Button.disabled (gui_play.button_startplay g) = true \/
   widgets.Button.disabled (gui_play.button_stopplay g) = true) /\
  (widgets.Button.disabled (gui_play.button_startplay g) = false \/
   widgets.Button.disabled (gui_play.button_stopplay g) = false ->
   array_play.mu32 self <> None) /\
  (forall obj, array_play.mu32 self = Some obj ->
     array_play.fs self = h5.MemsArrayH5.sampling_frequency obj /\
     array_play.file_duration self = Some (h5.MemsArrayH5.file_duration obj) /\
     widgets.Text.value (gui_play.fs g) =
       h5.str (h5.MemsArrayH5.sampling_frequency obj)).
Proof.
  intros Hw self g. subst g self.
  assert (Hinv : play_session.playback_invariant w).
  { induction Hw as [ | a E w Hw IH];
      [ exact playback_initial | exact (playback_exec a E w IH) ]. }
  destruct Hinv as [Hlock Hboth Hloaded Hdisplay].
  split; [ exact Hlock | ].
  split; [ apply orb_true_iff; exact Hboth | ].
  split; assumption.
Qed.

Lemma playback_session_invariant_witness :
  let w :=
    play_session.run
      [(play_session.click_play, play_examples.disk);
       (play_session.select_file "take2.h5", play_examples.disk)]
      play_examples.loaded in
  let self := play_session.self w in
  let g := array_play.gui self in
  array_play.filename self = Some (Some "take2.h5") /\
  widgets.Text.disabled (gui_play.blocksize g) =
    negb (widgets.Button.disabled (gui_play.button_stopplay g)) /\
  (forall obj, array_play.mu32 self = Some obj ->
     array_play.fs self = h5.MemsArrayH5.sampling_frequency obj /\
     array_play.file_duration self = Some (h5.MemsArrayH5.file_duration obj) /\
     widgets.Text.value (gui_play.fs g) =
       h5.str (h5.MemsArrayH5.sampling_frequency obj)).
Proof.
  cbv zeta. split; [ reflexivity | ].
  destruct (playback_session_invariant
              (play_session.run
                 [(play_session.click_play, play_examples.disk);
                  (play_session.select_file "take2.h5", play_examples.disk)]
                 play_examples.loaded))
    as (Hlock & _ & _ & Hdisplay).
  - exact (play_session.reachable_exec (play_session.select_file "take2.h5")
             play_examples.disk _
             (play_session.reachable_exec play_session.click_play play_examples.disk _
                (play_session.reachable_exec (play_session.select_file "take1.h5")
                   play_examples.disk _ play_session.reachable_initial))).
  - split; assumption.
Defined.
